(** * docker-backup: a shallow embedding of [main.py]

    The script lists the running containers of a Docker host, keeps the ones
    whose labels opt in, and writes one gzip artifact per backup job.  This
    file embeds the script function by function and proves the properties
    its specification states about it.

    Conventions of the embedding:
    - a Python [str] is a list of Unicode code points, a [bytes] object a list
      of [Byte.byte];
    - the Unicode tables behind [str.isalnum], [str.isspace] and [str.lower]
      are an interface ([Unicode]), fixed on the ASCII range;
    - a function that may raise returns a [result]; code that touches the
      host (file system, clock, log, Docker daemon) runs in the monad [M]
      over a [World];
    - the gzip codec is an interface ([Gzip]) with its stream laws. *)

From Stdlib Require Import ZArith NArith List Bool Lia Ascii String.
From Stdlib Require Import Strings.Byte.
From stdpp Require Import base option list gmap.

Import ListNotations.
Local Open Scope N_scope.

(** ** Python strings *)

Definition char := N.
Abbreviation str := (list N).
Abbreviation bytes := (list byte).

(** An ASCII literal of the source, as a [str]. *)
Definition py (s : string) : str :=
  List.map N_of_ascii (list_ascii_of_string s).

Definition ascii_isdigit (c : char) : bool := (48 <=? c) && (c <=? 57).
Definition ascii_isupper (c : char) : bool := (65 <=? c) && (c <=? 90).
Definition ascii_islower (c : char) : bool := (97 <=? c) && (c <=? 122).

Definition ascii_isalnum (c : char) : bool :=
  ascii_isdigit c || ascii_isupper c || ascii_islower c.

(** [str.isspace] below 128: TAB, LF, VT, FF, CR, the separators FS, GS, RS,
    US and the space. *)
Definition ascii_isspace (c : char) : bool :=
  ((9 <=? c) && (c <=? 13)) || ((28 <=? c) && (c <=? 32)).

Definition ascii_lower (c : char) : char :=
  if ascii_isupper c then c + 32 else c.

Definition is_ascii (c : char) : bool := c <? 128.

(** The Unicode character database as CPython consults it.  Beyond ASCII the
    tables are left open; on ASCII they are the ones above. *)
Class Unicode := {
  isalnum : char -> bool;
  isspace : char -> bool;
  str_lower : str -> str;
  isalnum_ascii : forall c, is_ascii c = true -> isalnum c = ascii_isalnum c;
  isspace_ascii : forall c, is_ascii c = true -> isspace c = ascii_isspace c;
  str_lower_ascii : forall s,
    forallb is_ascii s = true -> str_lower s = List.map ascii_lower s
}.

(** The tables of an interpreter that knows ASCII only: every other code
    point is neither alphanumeric nor white space and has no case. *)
Definition ascii_only_lower_char (c : char) : char :=
  if is_ascii c then ascii_lower c else c.

#[export] Instance ascii_unicode : Unicode.
Proof.
  refine {| isalnum c := is_ascii c && ascii_isalnum c;
            isspace c := is_ascii c && ascii_isspace c;
            str_lower s := List.map ascii_only_lower_char s |}.
  - intros c H. now rewrite H.
  - intros c H. now rewrite H.
  - intros s. induction s as [|c s IH]; simpl; [reflexivity|].
    intros H. apply andb_prop in H as [Hc Hs].
    unfold ascii_only_lower_char at 1. rewrite Hc. now rewrite IH.
Defined.

Section Naming.
Context {U : Unicode}.

(** [str.rstrip()] with no argument: drop the trailing white space. *)
Fixpoint rstrip (s : str) : str :=
  match s with
  | [] => []
  | c :: t =>
      match rstrip t with
      | [] => if isspace c then [] else [c]
      | t' => c :: t'
      end
  end.

Definition underscore : char := 95.
Definition hyphen : char := 45.

(** The test of the generator in [safe_filename]:
    [c.isalnum() or c in ('_', '-')]. *)
Definition safe_char (c : char) : bool :=
  isalnum c || (c =? underscore) || (c =? hyphen).

(** [safe_filename(name)]:
    ["".join(c for c in name if c.isalnum() or c in ('_', '-')).rstrip()]. *)
Definition safe_filename (name : str) : str :=
  rstrip (List.filter safe_char name).

End Naming.

(** ** Time stamps *)

(** The fields of a [datetime] object. *)
Record datetime := mkDatetime {
  year : N; month : N; day : N;
  hour : N; minute : N; second : N;
  microsecond : N
}.

Fixpoint uint_digits (d : Decimal.uint) : str :=
  match d with
  | Decimal.Nil => []
  | Decimal.D0 d => 48 :: uint_digits d
  | Decimal.D1 d => 49 :: uint_digits d
  | Decimal.D2 d => 50 :: uint_digits d
  | Decimal.D3 d => 51 :: uint_digits d
  | Decimal.D4 d => 52 :: uint_digits d
  | Decimal.D5 d => 53 :: uint_digits d
  | Decimal.D6 d => 54 :: uint_digits d
  | Decimal.D7 d => 55 :: uint_digits d
  | Decimal.D8 d => 56 :: uint_digits d
  | Decimal.D9 d => 57 :: uint_digits d
  end.

(** [str(n)] for a natural number. *)
Definition str_of_N (n : N) : str := uint_digits (N.to_uint n).

(** A directive of width 2, padded with zeros ([%m], [%d], [%H], [%M], [%S]). *)
Definition pad2 (n : N) : str :=
  let s := str_of_N n in List.repeat 48 (2 - length s)%nat ++ s.

(** [dt.strftime('%Y%m%d_%H%M%S')].  [%Y] is the year in decimal as the C
    library of the container image prints it (no padding); the microsecond
    has no directive in the format. *)
Definition strftime (dt : datetime) : str :=
  str_of_N (year dt) ++ pad2 (month dt) ++ pad2 (day dt) ++ [underscore] ++
  pad2 (hour dt) ++ pad2 (minute dt) ++ pad2 (second dt).

(** The field ranges of a [datetime] whose year has four digits. *)
Definition valid_datetime (dt : datetime) : bool :=
  (1000 <=? year dt) && (year dt <=? 9999) &&
  (1 <=? month dt) && (month dt <=? 12) &&
  (1 <=? day dt) && (day dt <=? 31) &&
  (hour dt <? 24) && (minute dt <? 60) && (second dt <? 60).

(** The shape [YYYYMMDD_HHMMSS]: eight digits, an underscore, six digits. *)
Definition is_timestamp (s : str) : bool :=
  (length s =? 15)%nat &&
  forallb ascii_isdigit (firstn 8 s) &&
  bool_decide (nth_error s 8 = Some underscore) &&
  forallb ascii_isdigit (skipn 9 s).

(** ** Paths *)

Definition slash : char := 47.

Definition str_eqb (a b : str) : bool := bool_decide (a = b).

Definition startswith_slash (s : str) : bool :=
  match s with c :: _ => c =? slash | [] => false end.

Definition endswith_slash (s : str) : bool :=
  match last s with Some c => c =? slash | None => false end.

(** [os.path.join(a, b)] of [posixpath], two arguments: [b] alone when it is
    absolute, no separator added when [a] is empty or ends with one. *)
Definition path_join (a b : str) : str :=
  if startswith_slash b then b
  else if str_eqb a [] || endswith_slash a then a ++ b
  else a ++ [slash] ++ b.

(** [s.rstrip('/')]. *)
Fixpoint rstrip_slash (s : str) : str :=
  match s with
  | [] => []
  | c :: t =>
      match rstrip_slash t with
      | [] => if c =? slash then [] else [c]
      | t' => c :: t'
      end
  end.

(** [p[:p.rfind('/') + 1]]: the prefix up to and including the last slash. *)
Fixpoint head_to_last_slash (p : str) : str :=
  match p with
  | [] => []
  | c :: t =>
      match head_to_last_slash t with
      | [] => if c =? slash then [c] else []
      | h => c :: h
      end
  end.

(** [os.path.dirname(p)] of [posixpath]. *)
Definition dirname (p : str) : str :=
  let head := head_to_last_slash p in
  if forallb (fun c => c =? slash) head then head else rstrip_slash head.

(** ** Exceptions and results *)

(** The exceptions the script can meet; all derive from [Exception].
    [DockerException] stands for [docker.errors.DockerException] and its
    subclasses, [OtherException] for any other class, with its text. *)
Inductive exn :=
| ValueError (msg : str)
| UnicodeDecodeError (position : N)
| FileExistsError (path : str)
| FileNotFoundError (path : str)
| IsADirectoryError (path : str)
| NotADirectoryError (path : str)
| DockerException (msg : str)
| OtherException (msg : str).

Definition is_DockerException (e : exn) : bool :=
  match e with DockerException _ => true | _ => false end.

Definition os_error_str (errno : N) (text : string) (path : str) : str :=
  py "[Errno " ++ str_of_N errno ++ py "] " ++ py text ++ py ": '" ++ path ++ py "'".

(** [str(e)], as the f-strings of the log calls print an exception. *)
Definition exn_str (e : exn) : str :=
  match e with
  | ValueError msg => msg
  | UnicodeDecodeError pos =>
      py "'utf-8' codec can't decode byte in position " ++ str_of_N pos
  | FileExistsError p => os_error_str 17 "File exists" p
  | FileNotFoundError p => os_error_str 2 "No such file or directory" p
  | IsADirectoryError p => os_error_str 21 "Is a directory" p
  | NotADirectoryError p => os_error_str 20 "Not a directory" p
  | DockerException msg => msg
  | OtherException msg => msg
  end.

Inductive result (A : Type) :=
| Ok (a : A)
| Raise (e : exn).
Arguments Ok {A} a.
Arguments Raise {A} e.

Definition is_Ok {A} (r : result A) : bool :=
  match r with Ok _ => true | Raise _ => false end.

(** ** [bytes.decode()]: strict UTF-8 *)

Definition is_cont (b : N) : bool := (128 <=? b) && (b <=? 191).

(** Decoding from offset [pos]; the first malformed sequence raises. *)
Fixpoint utf8_decode_from (pos : N) (bs : list N) : result str :=
  let continue (n : N) (cp : N) (rest : list N) :=
    match utf8_decode_from (pos + n) rest with
    | Ok s => Ok (cp :: s)
    | Raise e => Raise e
    end in
  match bs with
  | [] => Ok []
  | b0 :: r0 =>
      if b0 <? 128 then continue 1 b0 r0
      else if (194 <=? b0) && (b0 <=? 223) then
        match r0 with
        | b1 :: r1 =>
            if is_cont b1
            then continue 2 ((b0 - 192) * 64 + (b1 - 128)) r1
            else Raise (UnicodeDecodeError pos)
        | _ => Raise (UnicodeDecodeError pos)
        end
      else if (224 <=? b0) && (b0 <=? 239) then
        match r0 with
        | b1 :: b2 :: r2 =>
            let lo := if b0 =? 224 then 160 else 128 in
            let hi := if b0 =? 237 then 159 else 191 in
            if (lo <=? b1) && (b1 <=? hi) && is_cont b2
            then continue 3
                   ((b0 - 224) * 4096 + (b1 - 128) * 64 + (b2 - 128)) r2
            else Raise (UnicodeDecodeError pos)
        | _ => Raise (UnicodeDecodeError pos)
        end
      else if (240 <=? b0) && (b0 <=? 244) then
        match r0 with
        | b1 :: b2 :: b3 :: r3 =>
            let lo := if b0 =? 240 then 144 else 128 in
            let hi := if b0 =? 244 then 143 else 191 in
            if (lo <=? b1) && (b1 <=? hi) && is_cont b2 && is_cont b3
            then continue 4
                   ((b0 - 240) * 262144 + (b1 - 128) * 4096 +
                    (b2 - 128) * 64 + (b3 - 128)) r3
            else Raise (UnicodeDecodeError pos)
        | _ => Raise (UnicodeDecodeError pos)
        end
      else Raise (UnicodeDecodeError pos)
  end.

(** [output.decode()]. *)
Definition decode (b : bytes) : result str :=
  utf8_decode_from 0 (List.map Byte.to_N b).

(** ** The gzip codec *)

(** A [GzipFile] opened for writing: the state after the header, [write],
    and the bytes of the file once closed; [gunzip] reads a file back.  The
    laws are the stream contract of the format: an empty stream holds no
    data, and a write appends to what the stream holds. *)
Class Gzip := {
  gz_state : Type;
  gz_init : gz_state;
  gz_write : gz_state -> bytes -> gz_state;
  gz_close : gz_state -> bytes;
  gunzip : bytes -> option bytes;
  gunzip_init : gunzip (gz_close gz_init) = Some [];
  gunzip_write : forall st d p,
    gunzip (gz_close st) = Some p ->
    gunzip (gz_close (gz_write st d)) = Some (p ++ d)
}.

(** A codec that stores the data after the two magic bytes of the format. *)
Definition stored_close (data : bytes) : bytes := x1f :: x8b :: data.

Definition stored_gunzip (file : bytes) : option bytes :=
  match file with
  | x1f :: x8b :: data => Some data
  | _ => None
  end.

#[export] Instance stored_gzip : Gzip.
Proof.
  refine {| gz_state := bytes; gz_init := [];
            gz_write st d := st ++ d;
            gz_close := stored_close; gunzip := stored_gunzip |}.
  - reflexivity.
  - intros st d p H. simpl in *. congruence.
Defined.

(** ** Containers *)

(** What [get_archive] hands back as [bits]: the chunks the generator
    yields, then its end, normal or by an exception. *)
Definition stream : Type := list bytes * option exn.

(** A container object of the Docker SDK, as the script uses it: [name],
    [labels], [attrs['Config']['Env']], and the methods [exec_run] (command,
    environment) and [get_archive] (path), each answering or raising. *)
Record container := mkContainer {
  name : str;
  labels : gmap str str;
  attrs_Config_Env : list str;
  exec_run : str -> list (str * str) -> result (Z * bytes);
  get_archive : str -> result stream
}.

(** ** The host *)

Inductive node :=
| File (content : bytes)
| Dir.

Inductive level := INFO | ERROR.

Inductive strategy := Mysql | Django | Volume.

(** The host as the script sees it: the file system, keyed by the path as
    spelled; the records handed to the logger; the clock, read by
    [datetime.now()] ([w_clock] at reading number [w_tick]); the answer of
    the Docker daemon to [docker.from_env()] and [containers.list()], a list
    of containers or the text of a [DockerException].  [w_invoked] is a
    history variable: the calls of the three strategy functions, in order.
    Permissions and disk space are not modelled. *)
Record World := mkWorld {
  w_fs : gmap str node;
  w_log : list (level * str);
  w_clock : nat -> datetime;
  w_tick : nat;
  w_docker : str + list container;
  w_invoked : list (strategy * str)
}.

Definition set_fs (f : gmap str node -> gmap str node) (w : World) : World :=
  mkWorld (f (w_fs w)) (w_log w) (w_clock w) (w_tick w) (w_docker w) (w_invoked w).

Definition add_log (l : level) (msg : str) (w : World) : World :=
  mkWorld (w_fs w) (w_log w ++ [(l, msg)]) (w_clock w) (w_tick w) (w_docker w)
    (w_invoked w).

Definition tick (w : World) : World :=
  mkWorld (w_fs w) (w_log w) (w_clock w) (S (w_tick w)) (w_docker w) (w_invoked w).

Definition add_invoked (s : strategy) (n : str) (w : World) : World :=
  mkWorld (w_fs w) (w_log w) (w_clock w) (w_tick w) (w_docker w)
    (w_invoked w ++ [(s, n)]).

(** The root, the working directory and its empty spelling always are
    directories. *)
Definition is_dir (fs : gmap str node) (p : str) : bool :=
  str_eqb p [] || str_eqb p [slash] || str_eqb p (py ".") ||
  match fs !! p with Some Dir => true | _ => false end.

(** [os.path.exists(p)]. *)
Definition path_exists (fs : gmap str node) (p : str) : bool :=
  is_dir fs p || match fs !! p with Some _ => true | None => false end.

(** [Path(p).mkdir(parents=True, exist_ok=True)] on the file system: nothing
    to do on a directory, [FileExistsError] on a path taken by a file;
    otherwise the missing ancestors are made first ([fuel] bounds their
    number), and an ancestor that is a file raises [NotADirectoryError]. *)
Fixpoint mkdir_parents (fuel : nat) (p : str) (fs : gmap str node)
  : result (gmap str node) :=
  if is_dir fs p then Ok fs
  else match fs !! p with
  | Some _ => Raise (FileExistsError p)
  | None =>
      let parent := dirname p in
      if is_dir fs parent then Ok (<[p := Dir]> fs)
      else match fs !! parent with
      | Some _ => Raise (NotADirectoryError p)
      | None =>
          match fuel with
          | O => Raise (FileNotFoundError p)
          | S fuel' =>
              match mkdir_parents fuel' parent fs with
              | Ok fs' => Ok (<[p := Dir]> fs')
              | Raise e => Raise e
              end
          end
      end
  end.

(** Opening [p] with mode ['wb']: the exception raised, if any. *)
Definition open_wb_error (fs : gmap str node) (p : str) : option exn :=
  if is_dir fs p then Some (IsADirectoryError p)
  else if is_dir fs (dirname p) then None
  else match fs !! dirname p with
  | Some _ => Some (NotADirectoryError p)
  | None => Some (FileNotFoundError p)
  end.

(** ** The monad of the script: state and exceptions *)

Definition M (A : Type) : Type := World -> result A * World.

Definition ret {A} (a : A) : M A := fun w => (Ok a, w).

Definition bind {A B} (m : M A) (k : A -> M B) : M B :=
  fun w => match m w with
  | (Ok a, w') => k a w'
  | (Raise e, w') => (Raise e, w')
  end.

Definition raise {A} (e : exn) : M A := fun w => (Raise e, w).

Definition lift {A} (r : result A) : M A := fun w => (r, w).

(** [try: body except C as e: handler(e)], [C] given by its test. *)
Definition try_except {A} (body : M A) (catches : exn -> bool)
    (handler : exn -> M A) : M A :=
  fun w => match body w with
  | (Ok a, w') => (Ok a, w')
  | (Raise e, w') => if catches e then handler e w' else (Raise e, w')
  end.

(** [except Exception]: every exception of the model. *)
Definition any_Exception (e : exn) : bool := true.

#[export] Instance M_ret : MRet M := @ret.
#[export] Instance M_bind : MBind M := fun A B k m => bind m k.

Definition logger_info (msg : str) : M unit := fun w => (Ok tt, add_log INFO msg w).
Definition logger_error (msg : str) : M unit := fun w => (Ok tt, add_log ERROR msg w).

(** [datetime.now().strftime('%Y%m%d_%H%M%S')]: one reading of the clock. *)
Definition now_timestamp : M str :=
  fun w => (Ok (strftime (w_clock w (w_tick w))), tick w).

(** Entry of a strategy function, for the history. *)
Definition enter (s : strategy) (c : container) : M unit :=
  fun w => (Ok tt, add_invoked s (name c) w).

(** [docker.from_env()] followed by [client.containers.list()]. *)
Definition docker_containers : M (list container) :=
  fun w => match w_docker w with
  | inl msg => (Raise (DockerException msg), w)
  | inr cs => (Ok cs, w)
  end.

(** [os.path.exists(p)] on the host. *)
Definition os_path_exists (p : str) : M bool :=
  fun w => (Ok (path_exists (w_fs w) p), w).

(** [ensure_backup_dir(backup_dir)]. *)
Definition ensure_backup_dir (backup_dir : str) : M str :=
  fun w => match mkdir_parents (length backup_dir) backup_dir (w_fs w) with
  | Ok fs' => (Ok backup_dir, set_fs (fun _ => fs') w)
  | Raise e => (Raise e, w)
  end.

(** ** Reading the environment of a container *)

Definition equals_sign : char := 61.

(** [item.split('=', 1)] when it has two parts. *)
Fixpoint split_once (item : str) : option (str * str) :=
  match item with
  | [] => None
  | c :: t =>
      if c =? equals_sign then Some ([], t)
      else match split_once t with
      | Some (k, v) => Some (c :: k, v)
      | None => None
      end
  end.

(** [dict(item.split('=', 1) for item in container_env)]: a later entry
    replaces an earlier one of the same key; an entry with no ['='] is a
    sequence of length 1 and raises [ValueError]. *)
Fixpoint dict_of_env (i : N) (items : list str) (d : gmap str str)
  : result (gmap str str) :=
  match items with
  | [] => Ok d
  | item :: rest =>
      match split_once item with
      | Some (k, v) => dict_of_env (i + 1) rest (<[k := v]> d)
      | None =>
          Raise (ValueError (py "dictionary update sequence element #" ++
                             str_of_N i ++ py " has length 1; 2 is required"))
      end
  end.

(** [d.get(key, dflt)]. *)
Definition dict_get (d : gmap str str) (key : str) (dflt : str) : str :=
  default dflt (d !! key).

Section Script.
Context {U : Unicode} {G : Gzip}.

(** [with gzip.open(path, 'wb') as f: body(f)]: the file is made (or
    emptied) when it opens, and closed when the block is left, also by an
    exception. *)
Definition with_gzip_open {A} (path : str)
    (body : gz_state -> result A * gz_state) : M A :=
  fun w => match open_wb_error (w_fs w) path with
  | Some e => (Raise e, w)
  | None =>
      let '(r, f) := body gz_init in
      (r, set_fs <[path := File (gz_close f)]> w)
  end.

(** [f.write(output)]. *)
Definition write_output (output : bytes) (f : gz_state) : result unit * gz_state :=
  (Ok tt, gz_write f output).

(** [for chunk in bits: gz_file.write(chunk)]. *)
Definition write_chunks (bits : stream) (f : gz_state) : result unit * gz_state :=
  let f' := fold_left gz_write (fst bits) f in
  match snd bits with
  | None => (Ok tt, f')
  | Some e => (Raise e, f')
  end.

(** ** The names of the artifacts *)

Definition mysql_backup_file (backup_dir : str) (c : container) (timestamp : str) : str :=
  path_join backup_dir
    (py "mysql_backup_" ++ safe_filename (name c) ++ py "_" ++ timestamp ++
     py ".sql.gz").

Definition django_backup_file (backup_dir : str) (c : container) (timestamp : str) : str :=
  path_join backup_dir
    (py "django_backup_" ++ safe_filename (name c) ++ py "_" ++ timestamp ++
     py ".json.gz").

Definition volume_backup_file (backup_dir : str) (c : container) (vol : str)
    (timestamp : str) : str :=
  path_join backup_dir
    (py "volume_backup_" ++ safe_filename (name c) ++ py "_" ++
     safe_filename vol ++ py "_" ++ timestamp ++ py ".tar.gz").

(** ** The three strategies *)

Definition mysqldump_cmd (mysql_user mysql_database : str) : str :=
  py "mysqldump -u " ++ mysql_user ++ py " --databases " ++ mysql_database.

Definition backup_mysql (c : container) (backup_dir : str) : M bool :=
  enter Mysql c ;;
  timestamp ← now_timestamp;
  let backup_file := mysql_backup_file backup_dir c timestamp in
  env_dict ← lift (dict_of_env 0 (attrs_Config_Env c) ∅);
  let mysql_user := dict_get env_dict (py "MYSQL_USER") (py "root") in
  let mysql_password := dict_get env_dict (py "MYSQL_PASSWORD") [] in
  let mysql_database := dict_get env_dict (py "MYSQL_DATABASE") [] in
  let cmd := mysqldump_cmd mysql_user mysql_database in
  let environment := [(py "MYSQL_PWD", mysql_password)] in
  r ← lift (exec_run c cmd environment);
  let '(exit_code, output) := r in
  if (exit_code =? 0)%Z then
    with_gzip_open backup_file (write_output output) ;;
    logger_info (py "MySQL backup saved to " ++ backup_file) ;;
    mret true
  else
    text ← lift (decode output);
    logger_error (py "MySQL backup failed for " ++ name c ++ py ": " ++ text) ;;
    mret false.

Definition dumpdata_cmd : str :=
  py "python3 manage.py dumpdata -e contenttypes -e auth.permission --natural-foreign --natural-primary".

Definition backup_django (c : container) (backup_dir : str) : M bool :=
  enter Django c ;;
  timestamp ← now_timestamp;
  let backup_file := django_backup_file backup_dir c timestamp in
  r ← lift (exec_run c dumpdata_cmd []);
  let '(exit_code, output) := r in
  if (exit_code =? 0)%Z then
    with_gzip_open backup_file (write_output output) ;;
    logger_info (py "Django backup saved to " ++ backup_file) ;;
    mret true
  else
    text ← lift (decode output);
    logger_error (py "Django backup failed for " ++ name c ++ py ": " ++ text) ;;
    mret false.

Definition backup_volume (c : container) (vol : str) (backup_dir : str) : M bool :=
  enter Volume c ;;
  timestamp ← now_timestamp;
  let backup_file := volume_backup_file backup_dir c vol timestamp in
  try_except
    (bits ← lift (get_archive c vol);
     with_gzip_open backup_file (write_chunks bits) ;;
     logger_info (py "Volume backup saved to " ++ backup_file) ;;
     mret true)
    any_Exception
    (fun e =>
       logger_error (py "Error backing up volume " ++ vol ++
                     py " for container " ++ name c ++ py ": " ++ exn_str e) ;;
       mret false).

(** ** The dispatcher *)

(** [labels.get("DCBAK", "").lower() == "true"]. *)
Definition opted_in (c : container) : bool :=
  str_eqb (str_lower (dict_get (labels c) (py "DCBAK") [])) (py "true").

(** The dump dispatch on [DCBAK-TYPE]. *)
Definition dispatch_dump (c : container) (backup_dir : str) : M unit :=
  let backup_type := dict_get (labels c) (py "DCBAK-TYPE") [] in
  if str_eqb backup_type (py "mysql") then
    logger_info (py " > MySQL Backup") ;;
    backup_mysql c backup_dir ;;
    mret tt
  else if str_eqb backup_type (py "django") then
    logger_info (py " > Django Backup") ;;
    backup_django c backup_dir ;;
    mret tt
  else mret tt.

(** [labels.get("DCBAK-VOLUME", False)] as a condition: the label is there
    and its value is not the empty string. *)
Definition volume_label (c : container) : option str :=
  match labels c !! py "DCBAK-VOLUME" with
  | Some (ch :: v) => Some (ch :: v)
  | _ => None
  end.

(** The volume dispatch on [DCBAK-VOLUME]. *)
Definition dispatch_volume (c : container) (backup_dir : str) : M unit :=
  match volume_label c with
  | Some vol =>
      logger_info (py " > Volume Backup") ;;
      backup_volume c vol backup_dir ;;
      mret tt
  | None => mret tt
  end.

(** The body of the loop of [main] for one container. *)
Definition process_container (backup_dir : str) (c : container) : M unit :=
  if negb (opted_in c) then mret tt
  else
    logger_info (py "Backing up " ++ name c) ;;
    try_except
      (dispatch_dump c backup_dir ;; dispatch_volume c backup_dir)
      any_Exception
      (fun e =>
         logger_error (py "Error processing container " ++ name c ++
                       py ": " ++ exn_str e)).

(** [for container in containers: ...]. *)
Fixpoint for_containers (backup_dir : str) (containers : list container) : M unit :=
  match containers with
  | [] => mret tt
  | c :: rest =>
      process_container backup_dir c ;; for_containers backup_dir rest
  end.

(** ["/backup" if os.path.exists("/backup") else "./backup"]. *)
Definition backup_dir_if (exists_backup : bool) : str :=
  if exists_backup then py "/backup" else py "./backup".

(** The directory [main] chooses. *)
Definition choose_backup_dir : M str :=
  e ← os_path_exists (py "/backup");
  mret (backup_dir_if e).

(** [main()].  The [return] of the handler is the [None] of [connected]. *)
Definition main : M unit :=
  backup_dir ← choose_backup_dir;
  ensure_backup_dir backup_dir ;;
  connected ← try_except
    (containers ← docker_containers; mret (Some containers))
    is_DockerException
    (fun e =>
       logger_error (py "Failed to connect to Docker: " ++ exn_str e) ;;
       mret None);
  match connected with
  | None => mret tt
  | Some containers => for_containers backup_dir containers
  end.

End Script.

(** ** The naming scheme of the specification *)

(** [<dir>/<kind>_backup_<safe(name)>[_<safe(extra)>]_<timestamp>.<ext>.gz],
    written after the specification, to compare the names of the script
    with. *)
Definition scheme_path {U : Unicode} (dir : str) (kind : string) (container_name : str)
    (extra : option str) (timestamp : str) (ext : string) : str :=
  dir ++ py "/" ++ py kind ++ py "_backup_" ++ safe_filename container_name ++
  match extra with
  | Some x => py "_" ++ safe_filename x
  | None => []
  end ++
  py "_" ++ timestamp ++ py "." ++ py ext ++ py ".gz".

(** What a run [r] from the world [w] did to the file system: nothing, or
    it wrote the regular file [p]; and it wrote it if it returned [True]. *)
Definition wrote_only (r : result bool * World) (w : World) (p : str) : Prop :=
  (w_fs (snd r) = w_fs w \/
   exists content, w_fs (snd r) = <[p := File content]> (w_fs w))
  /\ (fst r = Ok true ->
      exists content, w_fs (snd r) = <[p := File content]> (w_fs w)).

(** ** Derived notions *)

Definition pad2_ok (n : N) : bool :=
  match pad2 n with
  | [a; b] => ascii_isdigit a && ascii_isdigit b
  | _ => false
  end.

Definition year_ok (n : N) : bool :=
  match str_of_N n with
  | [a; b; c; d] =>
      ascii_isdigit a && ascii_isdigit b && ascii_isdigit c && ascii_isdigit d
  | _ => false
  end.

Section Outcomes.
Context {U : Unicode} {G : Gzip}.

(** The world once a strategy has been entered and has read the clock. *)
Definition entered (s : strategy) (c : container) (w : World) : World :=
  tick (add_invoked s (name c) w).

Definition timestamp_at (w : World) : str := strftime (w_clock w (w_tick w)).

(** The time stamp of the second reading of the clock from [w]. *)
Definition next_timestamp (w : World) : str :=
  strftime (w_clock w (S (w_tick w))).

Definition mysql_cmd_of (d : gmap str str) : str :=
  mysqldump_cmd (dict_get d (py "MYSQL_USER") (py "root"))
                (dict_get d (py "MYSQL_DATABASE") []).

Definition mysql_environment_of (d : gmap str str) : list (str * str) :=
  [(py "MYSQL_PWD", dict_get d (py "MYSQL_PASSWORD") [])].

(** The outcome of a dump once the command has answered. *)
Definition dump_outcome (kind : string) (c : container) (path : str)
    (r : Z * bytes) (w1 : World) : result bool * World :=
  if (fst r =? 0)%Z then
    match open_wb_error (w_fs w1) path with
    | Some e => (Raise e, w1)
    | None =>
        (Ok true,
         add_log INFO (py kind ++ py " backup saved to " ++ path)
           (set_fs <[path := File (gz_close (gz_write gz_init (snd r)))]> w1))
    end
  else
    match decode (snd r) with
    | Raise e => (Raise e, w1)
    | Ok text =>
        (Ok false,
         add_log ERROR (py kind ++ py " backup failed for " ++ name c ++
                        py ": " ++ text) w1)
    end.

Definition volume_error_msg (c : container) (vol : str) (e : exn) : str :=
  py "Error backing up volume " ++ vol ++ py " for container " ++ name c ++
  py ": " ++ exn_str e.

(** A directory path to which [os.path.join] adds the separator. *)
Definition plain_dir (dir : str) : Prop :=
  dir <> [] /\ endswith_slash dir = false.

Definition no_slash (s : str) : Prop := Forall (fun c => c <> slash) s.

(** A dump whose command has answered [r] runs to its [return]: with exit
    status 0 the artifact opens for writing, with another status the output
    decodes. *)
Definition dump_completes (fs : gmap str node) (path : str) (r : Z * bytes) : bool :=
  if (fst r =? 0)%Z
  then match open_wb_error fs path with None => true | Some _ => false end
  else is_Ok (decode (snd r)).

(** The dump strategy the label [DCBAK-TYPE] selects. *)
Definition dump_strategy (c : container) : option strategy :=
  let backup_type := dict_get (labels c) (py "DCBAK-TYPE") [] in
  if str_eqb backup_type (py "mysql") then Some Mysql
  else if str_eqb backup_type (py "django") then Some Django
  else None.

(** The history entries of the two dispatches for one container. *)
Definition dump_part (c : container) : list (strategy * str) :=
  match dump_strategy c with
  | Some s => [(s, name c)]
  | None => []
  end.

Definition volume_part (c : container) : list (strategy * str) :=
  match volume_label c with
  | Some _ => [(Volume, name c)]
  | None => []
  end.

(** The world in which the [try] block of the loop starts. *)
Definition announced (c : container) (w : World) : World :=
  add_log INFO (py "Backing up " ++ name c) w.

(** The body of the [try] block of the loop. *)
Definition dispatch (c : container) (backup_dir : str) : M unit :=
  dispatch_dump c backup_dir ;; dispatch_volume c backup_dir.

(** The history entries a container leaves whatever its strategies do: the
    one of its dump strategy, and the one of the volume archive when no dump
    comes before it. *)
Definition always_invoked (c : container) (x : strategy * str) : Prop :=
  x ∈ dump_part c \/ (dump_strategy c = None /\ x ∈ volume_part c).

Definition container_error_msg (c : container) (e : exn) : str :=
  py "Error processing container " ++ name c ++ py ": " ++ exn_str e.

Definition connect_error_msg (msg : str) : str :=
  py "Failed to connect to Docker: " ++ msg.

(** The regular files of [fs'] are the ones of [fs]. *)
Definition same_files (fs fs' : gmap str node) : Prop :=
  forall p content, fs' !! p = Some (File content) <-> fs !! p = Some (File content).

End Outcomes.

(** ** Notions for the further properties *)

(** [item] holds an ['=']. *)
Definition has_equals (item : str) : bool :=
  existsb (fun c => c =? equals_sign) item.

(** The value the environment list gives a key: the one of the last entry
    [key=value] with that key. *)
Fixpoint env_lookup (items : list str) (key : str) : option str :=
  match items with
  | [] => None
  | item :: rest =>
      match env_lookup rest key with
      | Some v => Some v
      | None =>
          match split_once item with
          | Some (k, v) => if str_eqb k key then Some v else None
          | None => None
          end
      end
  end.

(** The test of [safe_filename] on the ASCII range. *)
Definition ascii_safe_char (c : char) : bool :=
  ascii_isalnum c || (c =? underscore) || (c =? hyphen).

(** What a run confined to the directory [dir] may do to the file system:
    every path other than [dir] and not directly in [dir] is as before, and
    no path is removed. *)
Definition confined (dir : str) (fs fs' : gmap str node) : Prop :=
  (forall p, p <> dir -> dirname p <> dir -> fs' !! p = fs !! p)
  /\ (forall p, is_Some (fs !! p) -> is_Some (fs' !! p)).

(** The number a string of decimal digits writes. *)
Definition digits_value (s : str) : N :=
  fold_left (fun acc c => 10 * acc + (c - 48)) s 0.

(** Two [datetime] objects in the same second. *)
Definition same_second (a b : datetime) : Prop :=
  year a = year b /\ month a = month b /\ day a = day b /\
  hour a = hour b /\ minute a = minute b /\ second a = second b.

(** The text of the [ValueError] of [dict] for the entry number [i]. *)
Definition dict_error_msg (i : N) : str :=
  py "dictionary update sequence element #" ++ str_of_N i ++
  py " has length 1; 2 is required".

(** ** Scenarios *)

(** Concrete containers and hosts, on the ASCII tables and the storing
    codec, to run the script on. *)
Module Scenario.
Local Open Scope string_scope.

Definition noon : datetime := mkDatetime 2024 3 7 12 30 5 250000.

Definition label_map (l : list (string * string)) : gmap str str :=
  list_to_map (List.map (fun kv => (py (fst kv), py (snd kv))) l).

Definition abc : bytes := ["a"; "b"; "c"]%byte.
Definition def : bytes := ["d"; "e"; "f"]%byte.
Definition abcdef : bytes := ["a"; "b"; "c"; "d"; "e"; "f"]%byte.

Definition exec_ok (output : bytes) : str -> list (str * str) -> result (Z * bytes) :=
  fun _ _ => Ok (0%Z, output).

Definition exec_exit (code : Z) (output : bytes)
  : str -> list (str * str) -> result (Z * bytes) :=
  fun _ _ => Ok (code, output).

Definition exec_raises : str -> list (str * str) -> result (Z * bytes) :=
  fun _ _ => Raise (DockerException (py "409 Client Error: container is paused")).

Definition archive_missing : str -> result stream :=
  fun _ => Raise (DockerException (py "404 Client Error: Not Found")).

Definition archive_of (chunks : list bytes) : str -> result stream :=
  fun _ => Ok (chunks, None).

(** A MySQL container that opted in with [DCBAK="TRUE"]. *)
Definition db : container :=
  mkContainer (py "db")
    (label_map [("DCBAK", "TRUE"); ("DCBAK-TYPE", "mysql")])
    [py "MYSQL_USER=backup"; py "MYSQL_DATABASE=shop"; py "PATH=/usr/bin"]
    (exec_ok abc) archive_missing.

(** The same with an environment entry that has no ['=']. *)
Definition db_bare_env : container :=
  mkContainer (py "db")
    (label_map [("DCBAK", "true"); ("DCBAK-TYPE", "mysql")])
    [py "DEBUG"]
    (exec_ok abc) archive_missing.

(** A Django container with a volume to archive. *)
Definition web : container :=
  mkContainer (py "web")
    (label_map [("DCBAK", "true"); ("DCBAK-TYPE", "django");
                ("DCBAK-VOLUME", "/data")])
    [] (exec_ok abc) (archive_of [abc; def]).

(** The same when the daemon refuses the [exec_run] call. *)
Definition web_paused : container :=
  mkContainer (py "web")
    (label_map [("DCBAK", "true"); ("DCBAK-TYPE", "django");
                ("DCBAK-VOLUME", "/data")])
    [] exec_raises (archive_of [abc; def]).

(** The same when the dump fails with output that is not UTF-8. *)
Definition web_garbled : container :=
  mkContainer (py "web")
    (label_map [("DCBAK", "true"); ("DCBAK-TYPE", "django")])
    [] (exec_exit 1 [xff]) archive_missing.

Definition db_garbled : container :=
  mkContainer (py "db")
    (label_map [("DCBAK", "true"); ("DCBAK-TYPE", "mysql")])
    [py "MYSQL_DATABASE=shop"]
    (exec_exit 2 [xff]) archive_missing.

(** The same when the dump fails with a readable message. *)
Definition web_failing : container :=
  mkContainer (py "web")
    (label_map [("DCBAK", "true"); ("DCBAK-TYPE", "django")])
    [] (exec_exit 1 abc) archive_missing.

(** Containers that did not opt in. *)
Definition cache : container :=
  mkContainer (py "cache") (label_map [("DCBAK-TYPE", "mysql")])
    [] (exec_ok abc) (archive_of [abc]).

Definition proxy : container :=
  mkContainer (py "proxy")
    (label_map [("DCBAK", "false"); ("DCBAK-VOLUME", "/etc")])
    [] (exec_ok abc) (archive_of [abc]).

Definition host_of (fs : gmap str node) (docker : str + list container) : World :=
  mkWorld fs [] (fun _ => noon) 0 docker [].

(** A host with the directory [/backup]. *)
Definition host (cs : list container) : World :=
  host_of {[ py "/backup" := Dir ]} (inr cs).

(** A host where a regular file sits at [/backup]. *)
Definition host_file_at_backup (cs : list container) : World :=
  host_of {[ py "/backup" := File [] ]} (inr cs).

(** A host where a regular file sits at [./backup]. *)
Definition host_file_at_fallback (cs : list container) : World :=
  host_of {[ py "./backup" := File [] ]} (inr cs).

(** A host whose Docker daemon cannot be reached. *)
Definition host_offline : World :=
  host_of ∅ (inl (py "Error while fetching server API version")).

End Scenario.

(** * Properties *)

(** ** The naming utility *)

Section NamingFacts.
Context {U : Unicode}.

Lemma rstrip_cons_nonempty (c : char) (t : str) :
  rstrip t <> [] -> rstrip (c :: t) = c :: rstrip t.
Proof. simpl. destruct (rstrip t); [congruence | reflexivity]. Qed.

Lemma rstrip_Forall (P : char -> Prop) (s : str) :
  Forall P s -> Forall P (rstrip s).
Proof.
  induction 1 as [|c t Hc Ht IH]; simpl; [constructor|].
  destruct (rstrip t) as [|d t'].
  - destruct (isspace c); repeat constructor; assumption.
  - constructor; assumption.
Qed.

Lemma rstrip_last (s : str) (c : char) :
  last (rstrip s) = Some c -> isspace c = false.
Proof.
  revert c. induction s as [|a t IH]; intros c; simpl; [discriminate|].
  destruct (rstrip t) as [|d t'] eqn:E.
  - destruct (isspace a) eqn:Ha; simpl; [discriminate|].
    intros [= <-]. exact Ha.
  - intros H. apply IH. rewrite <- H. reflexivity.
Qed.

Lemma rstrip_idempotent (s : str) : rstrip (rstrip s) = rstrip s.
Proof.
  induction s as [|a t IH]; simpl; [reflexivity|].
  destruct (rstrip t) as [|d t'] eqn:E.
  - destruct (isspace a) eqn:Ha; simpl; [reflexivity|]. now rewrite Ha.
  - rewrite rstrip_cons_nonempty; rewrite IH; [reflexivity | discriminate].
Qed.

Lemma filter_safe_char_Forall (s : str) :
  Forall (fun c => safe_char c = true) (List.filter safe_char s).
Proof.
  apply List.Forall_forall. intros c Hc.
  apply List.filter_In in Hc. tauto.
Qed.

Lemma filter_fixed (f : char -> bool) (s : str) :
  Forall (fun c => f c = true) s -> List.filter f s = s.
Proof.
  induction 1 as [|c t Hc Ht IH]; simpl; [reflexivity|].
  rewrite Hc. now rewrite IH.
Qed.

Lemma safe_filename_safe (s : str) :
  Forall (fun c => safe_char c = true) (safe_filename s).
Proof. apply rstrip_Forall, filter_safe_char_Forall. Qed.

Lemma safe_char_cases (c : char) :
  safe_char c = true -> isalnum c = true \/ c = underscore \/ c = hyphen.
Proof.
  unfold safe_char. intros H.
  apply orb_prop in H as [H|H]; [apply orb_prop in H as [H|H]|].
  - now left.
  - right; left. now apply N.eqb_eq.
  - right; right. now apply N.eqb_eq.
Qed.

End NamingFacts.

(** C9. For every string [s], [safe_filename s] holds only alphanumeric
    characters, underscores and hyphens, does not end with white space, and
    sanitising it again gives the same string. *)
Theorem safe_filename_spec {U : Unicode} (s : str) :
  Forall (fun c => isalnum c = true \/ c = underscore \/ c = hyphen)
         (safe_filename s)
  /\ (forall c, last (safe_filename s) = Some c -> isspace c = false)
  /\ safe_filename (safe_filename s) = safe_filename s.
Proof.
  split; [|split].
  - eapply Forall_impl; [apply safe_filename_safe|].
    intros c Hc. now apply safe_char_cases.
  - intros c. apply rstrip_last.
  - unfold safe_filename at 1.
    rewrite (filter_fixed safe_char (safe_filename s) (safe_filename_safe s)).
    apply rstrip_idempotent.
Qed.

(** ** Time stamps and paths *)

Lemma forallb_below (f : N -> bool) (bound : N) :
  forallb (fun i => f (N.of_nat i)) (List.seq 0 (N.to_nat bound)) = true ->
  forall n, n < bound -> f n = true.
Proof.
  intros H n Hn. rewrite List.forallb_forall in H.
  rewrite <- (N2Nat.id n). apply H. apply List.in_seq. lia.
Qed.

Lemma pad2_two_digits (n : N) : n < 100 -> pad2_ok n = true.
Proof. apply (forallb_below pad2_ok 100). vm_compute. reflexivity. Qed.

Lemma year_four_digits (n : N) : 1000 <= n <= 9999 -> year_ok n = true.
Proof.
  intros [Hlo Hhi].
  assert (H : (fun m => (m <? 1000) || year_ok m) n = true).
  { apply (forallb_below (fun m => (m <? 1000) || year_ok m) 10000);
      [vm_compute; reflexivity | lia]. }
  simpl in H. apply orb_prop in H as [H|H]; [|exact H].
  apply N.ltb_lt in H. lia.
Qed.

Lemma strftime_is_timestamp (dt : datetime) :
  valid_datetime dt = true -> is_timestamp (strftime dt) = true.
Proof.
  unfold valid_datetime. intros H.
  repeat (apply andb_prop in H as [H ?]).
  repeat match goal with
  | h : (_ <=? _) = true |- _ => apply N.leb_le in h
  | h : (_ <? _) = true |- _ => apply N.ltb_lt in h
  end.
  assert (Hy := year_four_digits (year dt) ltac:(lia)).
  assert (Hm := pad2_two_digits (month dt) ltac:(lia)).
  assert (Hd := pad2_two_digits (day dt) ltac:(lia)).
  assert (Hh := pad2_two_digits (hour dt) ltac:(lia)).
  assert (Hi := pad2_two_digits (minute dt) ltac:(lia)).
  assert (Hs := pad2_two_digits (second dt) ltac:(lia)).
  unfold strftime, year_ok, pad2_ok in *.
  destruct (str_of_N (year dt)) as [|y1 [|y2 [|y3 [|y4 [|]]]]]; try discriminate.
  destruct (pad2 (month dt)) as [|m1 [|m2 [|]]]; try discriminate.
  destruct (pad2 (day dt)) as [|d1 [|d2 [|]]]; try discriminate.
  destruct (pad2 (hour dt)) as [|h1 [|h2 [|]]]; try discriminate.
  destruct (pad2 (minute dt)) as [|i1 [|i2 [|]]]; try discriminate.
  destruct (pad2 (second dt)) as [|s1 [|s2 [|]]]; try discriminate.
  repeat match goal with
  | h : (_ && _) = true |- _ => apply andb_prop in h as [? ?]
  end.
  unfold is_timestamp. cbn [app length firstn skipn forallb nth_error].
  repeat match goal with
  | h : ascii_isdigit _ = true |- _ => rewrite h; clear h
  end.
  reflexivity.
Qed.

Lemma path_join_plain (a b : str) :
  a <> [] -> endswith_slash a = false -> startswith_slash b = false ->
  path_join a b = a ++ [slash] ++ b.
Proof.
  intros Ha Hend Hb. unfold path_join. rewrite Hb, Hend.
  unfold str_eqb. rewrite bool_decide_eq_false_2 by exact Ha. reflexivity.
Qed.

Lemma backup_dir_if_plain (e : bool) :
  backup_dir_if e <> [] /\ endswith_slash (backup_dir_if e) = false.
Proof. destruct e; split; (discriminate || reflexivity). Qed.

Section PathFacts.
Context {U : Unicode}.

Lemma mysql_backup_file_scheme (e : bool) (c : container) (ts : str) :
  mysql_backup_file (backup_dir_if e) c ts =
  scheme_path (backup_dir_if e) "mysql" (name c) None ts "sql".
Proof.
  unfold mysql_backup_file, scheme_path.
  destruct (backup_dir_if_plain e) as [Hne Hend].
  rewrite path_join_plain by (assumption || reflexivity). reflexivity.
Qed.

Lemma django_backup_file_scheme (e : bool) (c : container) (ts : str) :
  django_backup_file (backup_dir_if e) c ts =
  scheme_path (backup_dir_if e) "django" (name c) None ts "json".
Proof.
  unfold django_backup_file, scheme_path.
  destruct (backup_dir_if_plain e) as [Hne Hend].
  rewrite path_join_plain by (assumption || reflexivity). reflexivity.
Qed.

Lemma volume_backup_file_scheme (e : bool) (c : container) (vol ts : str) :
  volume_backup_file (backup_dir_if e) c vol ts =
  scheme_path (backup_dir_if e) "volume" (name c) (Some vol) ts "tar".
Proof.
  unfold volume_backup_file, scheme_path.
  destruct (backup_dir_if_plain e) as [Hne Hend].
  rewrite path_join_plain by (assumption || reflexivity).
  rewrite <- (app_assoc (py "_") (safe_filename vol)). reflexivity.
Qed.

End PathFacts.

(** ** The strategies, run *)

Section StrategyFacts.
Context {U : Unicode} {G : Gzip}.

Lemma backup_mysql_run (c : container) (dir : str) (w : World) :
  backup_mysql c dir w =
  let w1 := entered Mysql c w in
  match dict_of_env 0 (attrs_Config_Env c) ∅ with
  | Raise e => (Raise e, w1)
  | Ok d =>
      match exec_run c (mysql_cmd_of d) (mysql_environment_of d) with
      | Raise e => (Raise e, w1)
      | Ok r => dump_outcome "MySQL" c (mysql_backup_file dir c (timestamp_at w)) r w1
      end
  end.
Proof.
  unfold backup_mysql, dump_outcome, mbind, M_bind, bind, enter, now_timestamp,
    lift, with_gzip_open, write_output, logger_info, logger_error, mret, M_ret,
    ret, entered, timestamp_at; simpl.
  destruct (dict_of_env 0 (attrs_Config_Env c) ∅) as [d|e]; [|reflexivity].
  fold (mysql_cmd_of d). fold (mysql_environment_of d).
  destruct (exec_run c (mysql_cmd_of d) (mysql_environment_of d))
    as [[code out]|e]; [|reflexivity].
  simpl. destruct (code =? 0)%Z.
  - destruct (open_wb_error _ _); reflexivity.
  - destruct (decode out); reflexivity.
Qed.

Lemma backup_django_run (c : container) (dir : str) (w : World) :
  backup_django c dir w =
  let w1 := entered Django c w in
  match exec_run c dumpdata_cmd [] with
  | Raise e => (Raise e, w1)
  | Ok r => dump_outcome "Django" c (django_backup_file dir c (timestamp_at w)) r w1
  end.
Proof.
  unfold backup_django, dump_outcome, mbind, M_bind, bind, enter, now_timestamp,
    lift, with_gzip_open, write_output, logger_info, logger_error, mret, M_ret,
    ret, entered, timestamp_at; simpl.
  destruct (exec_run c dumpdata_cmd []) as [[code out]|e]; [|reflexivity].
  simpl. destruct (code =? 0)%Z.
  - destruct (open_wb_error _ _); reflexivity.
  - destruct (decode out); reflexivity.
Qed.

Lemma backup_volume_run (c : container) (vol dir : str) (w : World) :
  backup_volume c vol dir w =
  let w1 := entered Volume c w in
  let path := volume_backup_file dir c vol (timestamp_at w) in
  match get_archive c vol with
  | Raise e => (Ok false, add_log ERROR (volume_error_msg c vol e) w1)
  | Ok bits =>
      match open_wb_error (w_fs w1) path with
      | Some e => (Ok false, add_log ERROR (volume_error_msg c vol e) w1)
      | None =>
          let w2 :=
            set_fs <[path := File (gz_close (fold_left gz_write (fst bits) gz_init))]> w1 in
          match snd bits with
          | None => (Ok true, add_log INFO (py "Volume backup saved to " ++ path) w2)
          | Some e => (Ok false, add_log ERROR (volume_error_msg c vol e) w2)
          end
      end
  end.
Proof.
  unfold backup_volume, try_except, any_Exception, mbind, M_bind, bind, enter,
    now_timestamp, lift, with_gzip_open, write_chunks, logger_info, logger_error,
    mret, M_ret, ret, entered, timestamp_at, volume_error_msg; simpl.
  destruct (get_archive c vol) as [[chunks fin]|e]; [|reflexivity].
  simpl. destruct (open_wb_error _ _); [reflexivity|].
  destruct fin; reflexivity.
Qed.

End StrategyFacts.

Section WriteFacts.
Context {U : Unicode} {G : Gzip}.

Lemma dump_outcome_wrote_only (kind : string) (c : container) (path : str)
    (r : Z * bytes) (w w1 : World) :
  w_fs w1 = w_fs w -> wrote_only (dump_outcome kind c path r w1) w path.
Proof.
  intros Hfs. unfold dump_outcome, wrote_only.
  destruct (fst r =? 0)%Z.
  - destruct (open_wb_error (w_fs w1) path); simpl.
    + split; [now left | discriminate].
    + rewrite Hfs. split; [right|intros _]; eexists; reflexivity.
  - destruct (decode (snd r)); simpl; (split; [now left | discriminate]).
Qed.

Lemma backup_mysql_wrote_only (c : container) (dir : str) (w : World) :
  wrote_only (backup_mysql c dir w) w (mysql_backup_file dir c (timestamp_at w)).
Proof.
  rewrite backup_mysql_run. cbv zeta.
  destruct (dict_of_env 0 (attrs_Config_Env c) ∅) as [d|e].
  - destruct (exec_run c (mysql_cmd_of d) (mysql_environment_of d)) as [r|e].
    + now apply dump_outcome_wrote_only.
    + split; [now left | discriminate].
  - split; [now left | discriminate].
Qed.

Lemma backup_django_wrote_only (c : container) (dir : str) (w : World) :
  wrote_only (backup_django c dir w) w (django_backup_file dir c (timestamp_at w)).
Proof.
  rewrite backup_django_run. cbv zeta.
  destruct (exec_run c dumpdata_cmd []) as [r|e].
  - now apply dump_outcome_wrote_only.
  - split; [now left | discriminate].
Qed.

Lemma backup_volume_wrote_only (c : container) (vol dir : str) (w : World) :
  wrote_only (backup_volume c vol dir w) w
    (volume_backup_file dir c vol (timestamp_at w)).
Proof.
  rewrite backup_volume_run. cbv zeta. unfold wrote_only.
  destruct (get_archive c vol) as [[chunks fin]|e]; simpl.
  - destruct (open_wb_error _ _); simpl.
    + split; [now left | discriminate].
    + destruct fin; simpl; (split; [right|intros _]; eexists; reflexivity)
                           || (split; [right; eexists; reflexivity | discriminate]).
  - split; [now left | discriminate].
Qed.

End WriteFacts.

(** C8. In either directory [main] can choose, at a clock reading with a
    four-digit year, the time stamp has the shape [YYYYMMDD_HHMMSS] and each
    strategy touches the file system only by writing the file named after
    the scheme: kind [mysql] with extension [sql], [django] with [json],
    [volume] with [tar], the sanitised volume path being a segment of the
    volume name only; a strategy that returns [True] has written it. *)
Theorem artifact_path_scheme {U : Unicode} {G : Gzip}
    (exists_backup : bool) (c : container) (vol : str) (w : World) :
  valid_datetime (w_clock w (w_tick w)) = true ->
  let dir := backup_dir_if exists_backup in
  let ts := timestamp_at w in
  is_timestamp ts = true
  /\ wrote_only (backup_mysql c dir w) w
       (scheme_path dir "mysql" (name c) None ts "sql")
  /\ wrote_only (backup_django c dir w) w
       (scheme_path dir "django" (name c) None ts "json")
  /\ wrote_only (backup_volume c vol dir w) w
       (scheme_path dir "volume" (name c) (Some vol) ts "tar").
Proof.
  intros Hvalid dir ts. subst dir ts. repeat split.
  - now apply strftime_is_timestamp.
  - rewrite <- mysql_backup_file_scheme. apply backup_mysql_wrote_only.
  - rewrite <- mysql_backup_file_scheme. apply backup_mysql_wrote_only.
  - rewrite <- django_backup_file_scheme. apply backup_django_wrote_only.
  - rewrite <- django_backup_file_scheme. apply backup_django_wrote_only.
  - rewrite <- volume_backup_file_scheme. apply backup_volume_wrote_only.
  - rewrite <- volume_backup_file_scheme. apply backup_volume_wrote_only.
Qed.

(** ** The volume archive *)

Section VolumeFacts.
Context {U : Unicode} {G : Gzip}.

Lemma gunzip_fold_write (chunks : list bytes) :
  forall (f : gz_state) (p : bytes),
    gunzip (gz_close f) = Some p ->
    gunzip (gz_close (fold_left gz_write chunks f)) = Some (p ++ List.concat chunks).
Proof.
  induction chunks as [|chunk rest IH]; intros f p Hf; simpl.
  - now rewrite app_nil_r.
  - rewrite app_assoc. apply IH. now apply gunzip_write.
Qed.

Lemma gunzip_written_chunks (chunks : list bytes) :
  gunzip (gz_close (fold_left gz_write chunks gz_init)) = Some (List.concat chunks).
Proof. apply (gunzip_fold_write chunks gz_init []). apply gunzip_init. Qed.

End VolumeFacts.

(** C7. When the volume fetch hands back a stream and the artifact can be
    opened for writing, the artifact [backup_volume] leaves behind
    decompresses to the concatenation, in order, of the chunks the stream
    yielded, and the strategy returns [True] if the stream ended normally.
    For the chunks [b"abc"] and [b"def"] that content is [b"abcdef"]. *)
Theorem volume_archive_content {U : Unicode} {G : Gzip}
    (c : container) (vol dir : str) (w : World)
    (chunks : list bytes) (fin : option exn) :
  get_archive c vol = Ok (chunks, fin) ->
  let path := volume_backup_file dir c vol (timestamp_at w) in
  open_wb_error (w_fs w) path = None ->
  exists file,
    w_fs (snd (backup_volume c vol dir w)) !! path = Some (File file)
    /\ gunzip file = Some (List.concat chunks)
    /\ (fin = None -> fst (backup_volume c vol dir w) = Ok true)
    /\ (chunks = [Scenario.abc; Scenario.def] ->
        gunzip file = Some Scenario.abcdef).
Proof.
  intros Hget path Hopen.
  exists (gz_close (fold_left gz_write chunks gz_init)).
  rewrite backup_volume_run. cbv zeta. rewrite Hget. fold path.
  change (w_fs (entered Volume c w)) with (w_fs w). rewrite Hopen.
  split; [|split; [|split]].
  - destruct fin; simpl; apply lookup_insert_eq.
  - apply gunzip_written_chunks.
  - intros ->. reflexivity.
  - intros ->. apply gunzip_written_chunks.
Qed.

(** On the host with [/backup], the archive of the volume of [web], fetched
    as the chunks [b"abc"] and [b"def"], decompresses to [b"abcdef"]. *)
Lemma volume_archive_content_witness :
  exists file,
    w_fs (snd (backup_volume Scenario.web (py "/data") (py "/backup")
                 (Scenario.host [Scenario.web])))
      !! volume_backup_file (py "/backup") Scenario.web (py "/data")
           (timestamp_at (Scenario.host [Scenario.web])) = Some (File file)
    /\ gunzip file = Some Scenario.abcdef.
Proof.
  destruct (@volume_archive_content ascii_unicode stored_gzip
              Scenario.web (py "/data") (py "/backup")
              (Scenario.host [Scenario.web]) [Scenario.abc; Scenario.def] None
              eq_refl ltac:(vm_compute; reflexivity))
    as (file & Hfile & _ & _ & Habc).
  exists file. split; [exact Hfile | exact (Habc eq_refl)].
Defined.

(** ** Exceptions in the strategies *)

Section ExceptionFacts.
Context {U : Unicode} {G : Gzip}.

Lemma dump_outcome_completes (kind : string) (c : container) (path : str)
    (r : Z * bytes) (w1 : World) :
  dump_completes (w_fs w1) path r = true ->
  fst (dump_outcome kind c path r w1) = Ok (fst r =? 0)%Z.
Proof.
  unfold dump_completes, dump_outcome. destruct (fst r =? 0)%Z.
  - destruct (open_wb_error (w_fs w1) path); [discriminate | reflexivity].
  - destruct (decode (snd r)); [reflexivity | discriminate].
Qed.

Lemma dump_outcome_open_error (kind : string) (c : container) (path : str)
    (r : Z * bytes) (w1 : World) (e : exn) :
  fst r = 0%Z -> open_wb_error (w_fs w1) path = Some e ->
  dump_outcome kind c path r w1 = (Raise e, w1).
Proof. intros H0 He. unfold dump_outcome. now rewrite H0, He. Qed.

(** A dump that fails with a readable output returns [False], writes no
    file and logs an error that names the container. *)
Lemma dump_outcome_failure (kind : string) (c : container) (path : str)
    (r : Z * bytes) (w1 : World) (text : str) :
  fst r <> 0%Z -> decode (snd r) = Ok text ->
  dump_outcome kind c path r w1 =
  (Ok false,
   add_log ERROR (py kind ++ py " backup failed for " ++ name c ++ py ": " ++ text) w1).
Proof.
  intros H0 Ht. unfold dump_outcome.
  apply Z.eqb_neq in H0. now rewrite H0, Ht.
Qed.

Lemma backup_volume_returns (c : container) (vol dir : str) (w : World) :
  exists b, fst (backup_volume c vol dir w) = Ok b.
Proof.
  rewrite backup_volume_run. cbv zeta.
  destruct (get_archive c vol) as [[chunks fin]|e]; [|now eexists].
  destruct (open_wb_error _ _); [now eexists|].
  destruct fin; now eexists.
Qed.

End ExceptionFacts.

(** C1, as the script has it.  [backup_volume] always returns a boolean.
    [backup_mysql] and [backup_django] have no handler: they return a
    boolean (whether the exit status was 0) when the environment list
    parses, [exec_run] answers and the dump runs to its [return]; an
    exception raised by the parsing of the environment, by [exec_run] or by
    the opening of the artifact leaves the strategy. *)
Theorem strategy_exceptions {U : Unicode} {G : Gzip} :
  (forall c vol dir w, exists b, fst (backup_volume c vol dir w) = Ok b)
  /\ (forall c dir w d r,
        dict_of_env 0 (attrs_Config_Env c) ∅ = Ok d ->
        exec_run c (mysql_cmd_of d) (mysql_environment_of d) = Ok r ->
        dump_completes (w_fs w) (mysql_backup_file dir c (timestamp_at w)) r = true ->
        fst (backup_mysql c dir w) = Ok (fst r =? 0)%Z)
  /\ (forall c dir w r,
        exec_run c dumpdata_cmd [] = Ok r ->
        dump_completes (w_fs w) (django_backup_file dir c (timestamp_at w)) r = true ->
        fst (backup_django c dir w) = Ok (fst r =? 0)%Z)
  /\ (forall c dir w e,
        dict_of_env 0 (attrs_Config_Env c) ∅ = Raise e ->
        fst (backup_mysql c dir w) = Raise e)
  /\ (forall c dir w d e,
        dict_of_env 0 (attrs_Config_Env c) ∅ = Ok d ->
        exec_run c (mysql_cmd_of d) (mysql_environment_of d) = Raise e ->
        fst (backup_mysql c dir w) = Raise e)
  /\ (forall c dir w e,
        exec_run c dumpdata_cmd [] = Raise e ->
        fst (backup_django c dir w) = Raise e)
  /\ (forall c dir w d out e,
        dict_of_env 0 (attrs_Config_Env c) ∅ = Ok d ->
        exec_run c (mysql_cmd_of d) (mysql_environment_of d) = Ok (0%Z, out) ->
        open_wb_error (w_fs w) (mysql_backup_file dir c (timestamp_at w)) = Some e ->
        fst (backup_mysql c dir w) = Raise e)
  /\ (forall c dir w out e,
        exec_run c dumpdata_cmd [] = Ok (0%Z, out) ->
        open_wb_error (w_fs w) (django_backup_file dir c (timestamp_at w)) = Some e ->
        fst (backup_django c dir w) = Raise e).
Proof.
  repeat apply conj.
  - intros. apply backup_volume_returns.
  - intros c dir w d r Hd Hr Hc. rewrite backup_mysql_run. cbv zeta.
    rewrite Hd, Hr. now apply dump_outcome_completes.
  - intros c dir w r Hr Hc. rewrite backup_django_run. cbv zeta.
    rewrite Hr. now apply dump_outcome_completes.
  - intros c dir w e Hd. rewrite backup_mysql_run. cbv zeta. now rewrite Hd.
  - intros c dir w d e Hd Hr. rewrite backup_mysql_run. cbv zeta.
    now rewrite Hd, Hr.
  - intros c dir w e Hr. rewrite backup_django_run. cbv zeta. now rewrite Hr.
  - intros c dir w d out e Hd Hr Ho. rewrite backup_mysql_run. cbv zeta.
    rewrite Hd, Hr. now rewrite (dump_outcome_open_error _ _ _ _ _ e).
  - intros c dir w out e Hr Ho. rewrite backup_django_run. cbv zeta.
    rewrite Hr. now rewrite (dump_outcome_open_error _ _ _ _ _ e).
Qed.

(** On the host with [/backup], the dump of [db] returns [True], and the
    dump of [web_paused], whose [exec_run] raises, raises. *)
Lemma strategy_exceptions_witness :
  fst (backup_mysql Scenario.db (py "/backup") (Scenario.host [Scenario.db]))
    = Ok true
  /\ fst (backup_django Scenario.web_paused (py "/backup")
            (Scenario.host [Scenario.web_paused]))
    = Raise (DockerException (py "409 Client Error: container is paused")).
Proof.
  pose proof (@strategy_exceptions ascii_unicode stored_gzip)
    as (_ & Hmysql & _ & _ & _ & Hdjango & _).
  split.
  - refine (Hmysql Scenario.db (py "/backup") (Scenario.host [Scenario.db])
              _ (0%Z, Scenario.abc) eq_refl eq_refl _).
    vm_compute. reflexivity.
  - exact (Hdjango Scenario.web_paused (py "/backup")
             (Scenario.host [Scenario.web_paused]) _ eq_refl).
Defined.

(** C1, refuted as stated: [backup_mysql] on a container whose environment
    list holds the entry [DEBUG], with no ['='], returns no boolean; the
    [ValueError] of [dict] leaves it. *)
Lemma strategy_exceptions_counterexample :
  fst (backup_mysql Scenario.db_bare_env (py "/backup")
         (Scenario.host [Scenario.db_bare_env]))
    = Raise (ValueError
               (py "dictionary update sequence element #0 has length 1; 2 is required"))
  /\ ~ exists b : bool,
         fst (backup_mysql Scenario.db_bare_env (py "/backup")
                (Scenario.host [Scenario.db_bare_env])) = Ok b.
Proof.
  assert (H : fst (backup_mysql Scenario.db_bare_env (py "/backup")
                     (Scenario.host [Scenario.db_bare_env]))
              = Raise (ValueError
                 (py "dictionary update sequence element #0 has length 1; 2 is required")))
    by (vm_compute; reflexivity).
  split; [exact H|]. intros [b Hb]. rewrite H in Hb. discriminate.
Qed.

(** C6, at the failing input: a dump that exits with a status other than 0
    and an output that is not UTF-8 (the byte [0xff]) does not return
    [False]; the [UnicodeDecodeError] of [output.decode()] leaves the
    strategy, for [backup_django] and for [backup_mysql]. *)
Theorem dump_failure_undecodable :
  fst (backup_django Scenario.web_garbled (py "/backup")
         (Scenario.host [Scenario.web_garbled]))
    = Raise (UnicodeDecodeError 0)
  /\ fst (backup_mysql Scenario.db_garbled (py "/backup")
            (Scenario.host [Scenario.db_garbled]))
    = Raise (UnicodeDecodeError 0).
Proof. split; vm_compute; reflexivity. Qed.

(** ** The loop over the containers *)

Section DispatchFacts.
Context {U : Unicode} {G : Gzip}.

(** Every strategy leaves exactly its own entry in the history. *)
Lemma backup_mysql_invoked (c : container) (dir : str) (w : World) :
  w_invoked (snd (backup_mysql c dir w)) = w_invoked w ++ [(Mysql, name c)].
Proof.
  rewrite backup_mysql_run. cbv zeta.
  destruct (dict_of_env 0 (attrs_Config_Env c) ∅) as [d|e]; [|reflexivity].
  destruct (exec_run c _ _) as [r|e]; [|reflexivity].
  unfold dump_outcome. destruct (fst r =? 0)%Z.
  - destruct (open_wb_error _ _); reflexivity.
  - destruct (decode (snd r)); reflexivity.
Qed.

Lemma backup_django_invoked (c : container) (dir : str) (w : World) :
  w_invoked (snd (backup_django c dir w)) = w_invoked w ++ [(Django, name c)].
Proof.
  rewrite backup_django_run. cbv zeta.
  destruct (exec_run c _ _) as [r|e]; [|reflexivity].
  unfold dump_outcome. destruct (fst r =? 0)%Z.
  - destruct (open_wb_error _ _); reflexivity.
  - destruct (decode (snd r)); reflexivity.
Qed.

Lemma backup_volume_invoked (c : container) (vol dir : str) (w : World) :
  w_invoked (snd (backup_volume c vol dir w)) = w_invoked w ++ [(Volume, name c)].
Proof.
  rewrite backup_volume_run. cbv zeta.
  destruct (get_archive c vol) as [[chunks fin]|e]; [|reflexivity].
  destruct (open_wb_error _ _); [reflexivity|].
  destruct fin; reflexivity.
Qed.

(** The dump dispatch, by the strategy the label selects. *)
Lemma dispatch_dump_run (c : container) (dir : str) (w : World) :
  dispatch_dump c dir w =
  match dump_strategy c with
  | Some Mysql =>
      match backup_mysql c dir (add_log INFO (py " > MySQL Backup") w) with
      | (Ok _, w') => (Ok tt, w')
      | (Raise e, w') => (Raise e, w')
      end
  | Some Django =>
      match backup_django c dir (add_log INFO (py " > Django Backup") w) with
      | (Ok _, w') => (Ok tt, w')
      | (Raise e, w') => (Raise e, w')
      end
  | _ => (Ok tt, w)
  end.
Proof.
  unfold dispatch_dump, dump_strategy.
  destruct (str_eqb _ (py "mysql")).
  - unfold mbind, M_bind, bind, logger_info, mret, M_ret, ret.
    destruct (backup_mysql c dir _) as [[b|e] w']; reflexivity.
  - destruct (str_eqb _ (py "django")); [|reflexivity].
    unfold mbind, M_bind, bind, logger_info, mret, M_ret, ret.
    destruct (backup_django c dir _) as [[b|e] w']; reflexivity.
Qed.

Lemma dispatch_volume_run (c : container) (dir : str) (w : World) :
  dispatch_volume c dir w =
  match volume_label c with
  | Some vol =>
      (Ok tt, snd (backup_volume c vol dir (add_log INFO (py " > Volume Backup") w)))
  | None => (Ok tt, w)
  end.
Proof.
  unfold dispatch_volume. destruct (volume_label c) as [vol|]; [|reflexivity].
  unfold mbind, M_bind, bind, logger_info, mret, M_ret, ret.
  destruct (backup_volume_returns c vol dir (add_log INFO (py " > Volume Backup") w))
    as [b Hb].
  destruct (backup_volume c vol dir _) as [r w']. simpl in *. now subst r.
Qed.

Lemma dispatch_dump_invoked (c : container) (dir : str) (w : World) :
  w_invoked (snd (dispatch_dump c dir w)) = w_invoked w ++ dump_part c.
Proof.
  rewrite dispatch_dump_run. unfold dump_part, dump_strategy.
  destruct (str_eqb _ (py "mysql")); [|destruct (str_eqb _ (py "django"))].
  - pose proof (backup_mysql_invoked c dir (add_log INFO (py " > MySQL Backup") w)) as H.
    destruct (backup_mysql c dir _) as [[b|e] w']; exact H.
  - pose proof (backup_django_invoked c dir (add_log INFO (py " > Django Backup") w)) as H.
    destruct (backup_django c dir _) as [[b|e] w']; exact H.
  - simpl. now rewrite app_nil_r.
Qed.

Lemma dispatch_volume_invoked (c : container) (dir : str) (w : World) :
  w_invoked (snd (dispatch_volume c dir w)) = w_invoked w ++ volume_part c.
Proof.
  rewrite dispatch_volume_run. unfold volume_part.
  destruct (volume_label c) as [vol|]; simpl; [|now rewrite app_nil_r].
  rewrite backup_volume_invoked. reflexivity.
Qed.

Lemma dispatch_volume_returns (c : container) (dir : str) (w : World) :
  fst (dispatch_volume c dir w) = Ok tt.
Proof. rewrite dispatch_volume_run. now destruct (volume_label c). Qed.

(** The [try] block: the volume dispatch runs if the dump dispatch returns. *)
Lemma dispatch_run (c : container) (dir : str) (w : World) :
  dispatch c dir w =
  match dispatch_dump c dir w with
  | (Ok _, w') => (Ok tt, snd (dispatch_volume c dir w'))
  | (Raise e, w') => (Raise e, w')
  end.
Proof.
  unfold dispatch, mbind, M_bind, bind.
  destruct (dispatch_dump c dir w) as [[[]|e] w']; [|reflexivity].
  pose proof (dispatch_volume_returns c dir w') as H.
  destruct (dispatch_volume c dir w') as [r w'']. simpl in *. now subst r.
Qed.

Lemma dispatch_invoked (c : container) (dir : str) (w : World) :
  w_invoked (snd (dispatch c dir w)) =
  w_invoked w ++ dump_part c ++
  (if is_Ok (fst (dispatch_dump c dir w)) then volume_part c else []).
Proof.
  rewrite dispatch_run.
  pose proof (dispatch_dump_invoked c dir w) as Hd.
  destruct (dispatch_dump c dir w) as [[[]|e] w']; simpl in *.
  - rewrite dispatch_volume_invoked, Hd. now rewrite app_assoc.
  - rewrite Hd. now rewrite app_nil_r.
Qed.

(** The loop body: a container that did not opt in leaves the world as it
    is; otherwise the handler turns an exception of the [try] block into a
    log record. *)
Lemma process_container_run (dir : str) (c : container) (w : World) :
  process_container dir c w =
  if opted_in c then
    match dispatch c dir (announced c w) with
    | (Ok _, w') => (Ok tt, w')
    | (Raise e, w') => (Ok tt, add_log ERROR (container_error_msg c e) w')
    end
  else (Ok tt, w).
Proof.
  unfold process_container. fold (dispatch c dir).
  destruct (opted_in c); [|reflexivity].
  unfold negb, try_except, any_Exception, mbind, M_bind, bind, logger_info,
    logger_error.
  cbv beta iota. fold (announced c w).
  destruct (dispatch c dir (announced c w)) as [[[]|e] w']; reflexivity.
Qed.

Lemma process_container_returns (dir : str) (c : container) (w : World) :
  fst (process_container dir c w) = Ok tt.
Proof.
  rewrite process_container_run. destruct (opted_in c); [|reflexivity].
  destruct (dispatch c dir (announced c w)) as [[[]|e] w']; reflexivity.
Qed.

Lemma process_container_invoked (dir : str) (c : container) (w : World) :
  w_invoked (snd (process_container dir c w)) =
  w_invoked w ++
  (if opted_in c then
     dump_part c ++
     (if is_Ok (fst (dispatch_dump c dir (announced c w))) then volume_part c else [])
   else []).
Proof.
  rewrite process_container_run. destruct (opted_in c); [|simpl; now rewrite app_nil_r].
  pose proof (dispatch_invoked c dir (announced c w)) as H.
  destruct (dispatch c dir (announced c w)) as [[[]|e] w']; exact H.
Qed.

Lemma for_containers_cons (dir : str) (c : container) (cs : list container) (w : World) :
  for_containers dir (c :: cs) w =
  for_containers dir cs (snd (process_container dir c w)).
Proof.
  simpl. unfold mbind, M_bind, bind.
  pose proof (process_container_returns dir c w) as H.
  destruct (process_container dir c w) as [r w']. simpl in *. now subst r.
Qed.

Lemma for_containers_app (dir : str) (cs1 cs2 : list container) (w : World) :
  for_containers dir (cs1 ++ cs2) w =
  for_containers dir cs2 (snd (for_containers dir cs1 w)).
Proof.
  revert w. induction cs1 as [|c cs1 IH]; intros w; [reflexivity|].
  rewrite <- app_comm_cons, !for_containers_cons. apply IH.
Qed.

Lemma for_containers_returns (dir : str) (cs : list container) (w : World) :
  fst (for_containers dir cs w) = Ok tt.
Proof.
  revert w. induction cs as [|c cs IH]; intros w; [reflexivity|].
  rewrite for_containers_cons. apply IH.
Qed.

End DispatchFacts.

Section LoopFacts.
Context {U : Unicode} {G : Gzip}.

(** The log only grows. *)
Lemma dump_outcome_log (kind : string) (c : container) (path : str)
    (r : Z * bytes) (w1 : World) :
  w_log w1 `prefix_of` w_log (snd (dump_outcome kind c path r w1)).
Proof.
  unfold dump_outcome. destruct (fst r =? 0)%Z.
  - destruct (open_wb_error _ _); simpl; [reflexivity | now eexists].
  - destruct (decode (snd r)); simpl; [now eexists | reflexivity].
Qed.

Lemma backup_mysql_log (c : container) (dir : str) (w : World) :
  w_log w `prefix_of` w_log (snd (backup_mysql c dir w)).
Proof.
  rewrite backup_mysql_run. cbv zeta.
  destruct (dict_of_env 0 (attrs_Config_Env c) ∅) as [d|e]; [|reflexivity].
  destruct (exec_run c _ _) as [r|e]; [|reflexivity].
  apply (dump_outcome_log _ _ _ _ (entered Mysql c w)).
Qed.

Lemma backup_django_log (c : container) (dir : str) (w : World) :
  w_log w `prefix_of` w_log (snd (backup_django c dir w)).
Proof.
  rewrite backup_django_run. cbv zeta.
  destruct (exec_run c _ _) as [r|e]; [|reflexivity].
  apply (dump_outcome_log _ _ _ _ (entered Django c w)).
Qed.

Lemma backup_volume_log (c : container) (vol dir : str) (w : World) :
  w_log w `prefix_of` w_log (snd (backup_volume c vol dir w)).
Proof.
  rewrite backup_volume_run. cbv zeta.
  destruct (get_archive c vol) as [[chunks fin]|e]; [|now eexists].
  destruct (open_wb_error _ _); [now eexists|].
  destruct fin; now eexists.
Qed.

Lemma add_log_prefix (l : level) (msg : str) (w : World) :
  w_log w `prefix_of` w_log (add_log l msg w).
Proof. now eexists. Qed.

Lemma dispatch_dump_log (c : container) (dir : str) (w : World) :
  w_log w `prefix_of` w_log (snd (dispatch_dump c dir w)).
Proof.
  rewrite dispatch_dump_run. destruct (dump_strategy c) as [[| |]|]; try reflexivity.
  - pose proof (backup_mysql_log c dir (add_log INFO (py " > MySQL Backup") w)) as H.
    etrans; [apply add_log_prefix|].
    destruct (backup_mysql c dir _) as [[b|e] w']; exact H.
  - pose proof (backup_django_log c dir (add_log INFO (py " > Django Backup") w)) as H.
    etrans; [apply add_log_prefix|].
    destruct (backup_django c dir _) as [[b|e] w']; exact H.
Qed.

Lemma dispatch_volume_log (c : container) (dir : str) (w : World) :
  w_log w `prefix_of` w_log (snd (dispatch_volume c dir w)).
Proof.
  rewrite dispatch_volume_run. destruct (volume_label c) as [vol|]; [|reflexivity].
  etrans; [apply add_log_prefix | apply backup_volume_log].
Qed.

Lemma dispatch_log (c : container) (dir : str) (w : World) :
  w_log w `prefix_of` w_log (snd (dispatch c dir w)).
Proof.
  rewrite dispatch_run. pose proof (dispatch_dump_log c dir w) as H.
  destruct (dispatch_dump c dir w) as [[[]|e] w']; [|exact H].
  etrans; [exact H | apply dispatch_volume_log].
Qed.

Lemma process_container_log (dir : str) (c : container) (w : World) :
  w_log w `prefix_of` w_log (snd (process_container dir c w)).
Proof.
  rewrite process_container_run. destruct (opted_in c); [|reflexivity].
  pose proof (dispatch_log c dir (announced c w)) as H.
  etrans; [apply add_log_prefix|]. fold (announced c w).
  destruct (dispatch c dir (announced c w)) as [[[]|e] w']; [exact H|].
  etrans; [exact H | apply add_log_prefix].
Qed.

Lemma for_containers_log (dir : str) (cs : list container) (w : World) :
  w_log w `prefix_of` w_log (snd (for_containers dir cs w)).
Proof.
  revert w. induction cs as [|c cs IH]; intros w; [reflexivity|].
  rewrite for_containers_cons.
  etrans; [apply process_container_log | apply IH].
Qed.

(** The history only grows. *)
Lemma process_container_history (dir : str) (c : container) (w : World) :
  w_invoked w `prefix_of` w_invoked (snd (process_container dir c w)).
Proof. rewrite process_container_invoked. now eexists. Qed.

Lemma for_containers_history (dir : str) (cs : list container) (w : World) :
  w_invoked w `prefix_of` w_invoked (snd (for_containers dir cs w)).
Proof.
  revert w. induction cs as [|c cs IH]; intros w; [reflexivity|].
  rewrite for_containers_cons.
  etrans; [apply process_container_history | apply IH].
Qed.

Lemma dispatch_dump_none (c : container) (dir : str) (w : World) :
  dump_strategy c = None -> dispatch_dump c dir w = (Ok tt, w).
Proof. intros H. rewrite dispatch_dump_run. now rewrite H. Qed.

Lemma process_container_invokes (dir : str) (c : container) (w : World)
    (x : strategy * str) :
  opted_in c = true -> always_invoked c x ->
  exists h1 h2,
    w_invoked (snd (process_container dir c w)) = w_invoked w ++ h1 ++ x :: h2.
Proof.
  intros Hin Hx. rewrite process_container_invoked, Hin.
  destruct Hx as [Hx | [Hnone Hx]].
  - apply list_elem_of_split in Hx as (h1 & h2 & ->).
    exists h1. eexists. rewrite <- !app_assoc. reflexivity.
  - rewrite (dispatch_dump_none c dir _ Hnone). simpl.
    unfold dump_part. rewrite Hnone. simpl.
    apply list_elem_of_split in Hx as (h1 & h2 & ->). now exists h1, h2.
Qed.

Lemma for_containers_invokes (dir : str) (cs : list container) (w : World)
    (b : container) (x : strategy * str) :
  b ∈ cs -> opted_in b = true -> always_invoked b x ->
  exists h1 h2,
    w_invoked (snd (for_containers dir cs w)) = w_invoked w ++ h1 ++ x :: h2.
Proof.
  intros Hb Hin Hx. revert w.
  induction cs as [|c cs IH]; intros w; [inversion Hb|].
  rewrite for_containers_cons.
  apply elem_of_cons in Hb as [<- | Hb].
  - destruct (process_container_invokes dir b w x Hin Hx) as (h1 & h2 & H1).
    destruct (for_containers_history dir cs (snd (process_container dir b w)))
      as [k Hk].
    exists h1, (h2 ++ k). rewrite Hk, H1. rewrite <- !app_assoc. reflexivity.
  - destruct (IH Hb (snd (process_container dir c w))) as (h1 & h2 & H1).
    destruct (process_container_history dir c w) as [k Hk].
    exists (k ++ h1), h2. rewrite H1, Hk. rewrite <- !app_assoc. reflexivity.
Qed.

End LoopFacts.

(** C2. In the loop of [main], when the [try] block of a container [c]
    raises an exception [e], the handler of the loop catches it and logs it
    with the name of [c]; the loop goes on with the containers after [c] and
    returns normally; and every opted-in container [b] after [c] has its
    dump strategy invoked (and its volume archive, when no dump comes before
    it) after the failure of [c]. *)
Theorem container_isolation {U : Unicode} {G : Gzip}
    (dir : str) (before : list container) (c : container)
    (after : list container) (w : World) (e : exn) (w2 : World) :
  let w1 := snd (for_containers dir before w) in
  let w3 := add_log ERROR (container_error_msg c e) w2 in
  let final := for_containers dir (before ++ c :: after) w in
  opted_in c = true ->
  dispatch c dir (announced c w1) = (Raise e, w2) ->
  process_container dir c w1 = (Ok tt, w3)
  /\ final = for_containers dir after w3
  /\ fst final = Ok tt
  /\ (ERROR, container_error_msg c e) ∈ w_log (snd final)
  /\ (forall b x, b ∈ after -> opted_in b = true -> always_invoked b x ->
        exists h1 h2, w_invoked (snd final) = w_invoked w3 ++ h1 ++ x :: h2).
Proof.
  intros w1 w3 final Hin Hraise.
  assert (Hc : process_container dir c w1 = (Ok tt, w3)).
  { rewrite process_container_run, Hin, Hraise. reflexivity. }
  assert (Hfinal : final = for_containers dir after w3).
  { unfold final. rewrite for_containers_app, for_containers_cons.
    fold w1. now rewrite Hc. }
  split; [exact Hc|]. split; [exact Hfinal|]. rewrite Hfinal.
  split; [apply for_containers_returns|]. split.
  - destruct (for_containers_log dir after w3) as [l ->].
    apply elem_of_app. left. unfold w3. simpl.
    apply elem_of_app. right. apply list_elem_of_singleton. reflexivity.
  - intros b x Hb Hbin Hx. now apply for_containers_invokes with (b := b).
Qed.

(** ** The directory of an artifact *)

Lemma head_to_last_slash_none (b : str) :
  no_slash b -> head_to_last_slash b = [].
Proof.
  induction 1 as [|c t Hc Ht IH]; simpl; [reflexivity|].
  rewrite IH. apply N.eqb_neq in Hc. now rewrite Hc.
Qed.

Lemma head_to_last_slash_app (a b : str) :
  no_slash b -> head_to_last_slash (a ++ slash :: b) = a ++ [slash].
Proof.
  intros Hb. induction a as [|c a IH]; simpl.
  - now rewrite (head_to_last_slash_none b Hb).
  - rewrite IH. destruct (a ++ [slash]) eqn:E; [|reflexivity].
    now apply app_eq_nil in E as [_ E].
Qed.

Lemma endswith_slash_cons (c : char) (t : str) :
  t <> [] -> endswith_slash (c :: t) = endswith_slash t.
Proof.
  intros Ht. unfold endswith_slash. rewrite last_cons.
  destruct (last t) eqn:E; [reflexivity|].
  apply last_None in E. contradiction.
Qed.

Lemma rstrip_slash_app (a : str) :
  a <> [] -> endswith_slash a = false -> rstrip_slash (a ++ [slash]) = a.
Proof.
  induction a as [|c t IH]; intros Hne Hend; [contradiction|].
  destruct t as [|d t'].
  - simpl. unfold endswith_slash in Hend. simpl in Hend. now rewrite Hend.
  - rewrite endswith_slash_cons in Hend by discriminate.
    change (rstrip_slash ((c :: d :: t') ++ [slash]))
      with (match rstrip_slash ((d :: t') ++ [slash]) with
            | [] => if c =? slash then [] else [c]
            | t'' => c :: t''
            end).
    rewrite IH by (discriminate || assumption). reflexivity.
Qed.

Lemma all_slash_endswith (a : str) :
  a <> [] -> forallb (fun c => c =? slash) a = true -> endswith_slash a = true.
Proof.
  induction a as [|c t IH]; intros Hne Hall; [contradiction|].
  simpl in Hall. apply andb_prop in Hall as [Hc Ht].
  destruct t as [|d t'].
  - unfold endswith_slash. simpl. exact Hc.
  - rewrite endswith_slash_cons by discriminate. apply IH; [discriminate | exact Ht].
Qed.

Lemma dirname_app (a b : str) :
  plain_dir a -> no_slash b -> dirname (a ++ slash :: b) = a.
Proof.
  intros [Hne Hend] Hb. unfold dirname. cbv zeta.
  rewrite head_to_last_slash_app by exact Hb.
  rewrite List.forallb_app.
  destruct (forallb (fun c => c =? slash) a) eqn:Hall.
  - rewrite (all_slash_endswith a Hne Hall) in Hend. discriminate.
  - simpl. now apply rstrip_slash_app.
Qed.

Lemma no_slash_startswith (b : str) :
  no_slash b -> startswith_slash b = false.
Proof.
  intros [|c t Hc _]; [reflexivity|]. simpl. now apply N.eqb_neq.
Qed.

Lemma path_join_no_slash (a b : str) :
  plain_dir a -> no_slash b -> path_join a b = a ++ slash :: b.
Proof.
  intros [Hne Hend] Hb.
  apply path_join_plain; auto using no_slash_startswith.
Qed.

Lemma dirname_path_join (a b : str) :
  plain_dir a -> no_slash b -> dirname (path_join a b) = a.
Proof.
  intros Ha Hb. rewrite path_join_no_slash by assumption. now apply dirname_app.
Qed.

Lemma path_join_longer (a b : str) :
  plain_dir a -> no_slash b -> path_join a b <> a.
Proof.
  intros Ha Hb. rewrite path_join_no_slash by assumption.
  intros H. apply (f_equal length) in H. rewrite length_app in H. simpl in H. lia.
Qed.

Lemma uint_digits_no_slash (d : Decimal.uint) : no_slash (uint_digits d).
Proof. induction d; simpl; constructor; (discriminate || assumption). Qed.

Lemma pad2_no_slash (n : N) : no_slash (pad2 n).
Proof.
  unfold pad2, no_slash. cbv zeta. apply Forall_app. split.
  - apply Forall_forall. intros c Hc. apply list_elem_of_In, List.repeat_spec in Hc.
    now subst c.
  - apply uint_digits_no_slash.
Qed.

Ltac split_no_slash :=
  unfold no_slash;
  repeat match goal with
  | |- Forall _ (_ ++ _) => apply Forall_app; split
  end.

Lemma strftime_no_slash (dt : datetime) : no_slash (strftime dt).
Proof.
  unfold strftime. split_no_slash;
    try apply pad2_no_slash; try apply uint_digits_no_slash.
  repeat constructor. discriminate.
Qed.

Lemma py_no_slash (s : string) :
  forallb (fun c => negb (c =? slash)) (py s) = true -> no_slash (py s).
Proof.
  intros H. apply Forall_forall. intros c Hc.
  rewrite List.forallb_forall in H. apply list_elem_of_In, H in Hc.
  apply negb_true_iff, N.eqb_neq in Hc. exact Hc.
Qed.

Section ArtifactDir.
Context {U : Unicode}.

Lemma safe_char_not_slash (c : char) : safe_char c = true -> c <> slash.
Proof.
  intros H ->. unfold safe_char in H.
  rewrite (isalnum_ascii slash eq_refl) in H. discriminate.
Qed.

Lemma safe_filename_no_slash (s : str) : no_slash (safe_filename s).
Proof.
  eapply Forall_impl; [apply safe_filename_safe|].
  intros c. apply safe_char_not_slash.
Qed.

Lemma mysql_name_no_slash (c : container) (dt : datetime) :
  no_slash (py "mysql_backup_" ++ safe_filename (name c) ++ py "_" ++
            strftime dt ++ py ".sql.gz").
Proof.
  split_no_slash;
    try apply safe_filename_no_slash; try apply strftime_no_slash;
    apply py_no_slash; reflexivity.
Qed.

Lemma django_name_no_slash (c : container) (dt : datetime) :
  no_slash (py "django_backup_" ++ safe_filename (name c) ++ py "_" ++
            strftime dt ++ py ".json.gz").
Proof.
  split_no_slash;
    try apply safe_filename_no_slash; try apply strftime_no_slash;
    apply py_no_slash; reflexivity.
Qed.

Lemma volume_name_no_slash (c : container) (vol : str) (dt : datetime) :
  no_slash (py "volume_backup_" ++ safe_filename (name c) ++ py "_" ++
            safe_filename vol ++ py "_" ++ strftime dt ++ py ".tar.gz").
Proof.
  split_no_slash;
    try apply safe_filename_no_slash; try apply strftime_no_slash;
    apply py_no_slash; reflexivity.
Qed.

(** In a directory that exists, an artifact opens for writing unless a
    directory has its name. *)
Lemma open_in_dir (fs : gmap str node) (dir b : str) :
  plain_dir dir -> no_slash b ->
  is_dir fs dir = true -> is_dir fs (path_join dir b) = false ->
  open_wb_error fs (path_join dir b) = None.
Proof.
  intros Hd Hb Hdir Hp. unfold open_wb_error.
  rewrite Hp, dirname_path_join by assumption. now rewrite Hdir.
Qed.

End ArtifactDir.

(** ** The opt-in gate *)

Section GateFacts.
Context {U : Unicode} {G : Gzip}.

Lemma opted_in_iff (c : container) :
  opted_in c = true <->
  str_lower (dict_get (labels c) (py "DCBAK") []) = py "true".
Proof. unfold opted_in, str_eqb. apply bool_decide_eq_true. Qed.

Lemma opted_in_ascii (c : container) (v : str) :
  labels c !! py "DCBAK" = Some v -> forallb is_ascii v = true ->
  (opted_in c = true <-> List.map ascii_lower v = py "true").
Proof.
  intros Hv Hascii. rewrite opted_in_iff. unfold dict_get. rewrite Hv. simpl.
  now rewrite (str_lower_ascii v Hascii).
Qed.

Lemma opted_in_absent (c : container) :
  labels c !! py "DCBAK" = None -> opted_in c = false.
Proof.
  intros Hv. apply not_true_is_false. rewrite opted_in_iff.
  unfold dict_get. rewrite Hv. simpl.
  rewrite (str_lower_ascii [] eq_refl). discriminate.
Qed.

Lemma not_opted_in_skipped (dir : str) (c : container) (w : World) :
  opted_in c = false -> process_container dir c w = (Ok tt, w).
Proof. intros H. rewrite process_container_run. now rewrite H. Qed.

Lemma dump_strategy_mysql (c : container) :
  labels c !! py "DCBAK-TYPE" = Some (py "mysql") -> dump_strategy c = Some Mysql.
Proof. intros H. unfold dump_strategy, dict_get. now rewrite H. Qed.

Lemma dump_strategy_django (c : container) :
  labels c !! py "DCBAK-TYPE" = Some (py "django") -> dump_strategy c = Some Django.
Proof. intros H. unfold dump_strategy, dict_get. now rewrite H. Qed.

Lemma volume_part_not_mysql (c : container) :
  Forall (fun x => fst x <> Mysql) (volume_part c).
Proof.
  unfold volume_part. destruct (volume_label c); repeat constructor. discriminate.
Qed.

End GateFacts.

(** C3. The loop body invokes a strategy, or touches a file, only for a
    container whose label [DCBAK], lowered, equals ["true"] (for an ASCII
    value: whose letters, lowered one by one, spell ["true"]).  A container
    with no [DCBAK] label, or with another value such as ["false"], is
    skipped and leaves the world as it is: no strategy, no file.  A
    container with [DCBAK="TRUE"] and [DCBAK-TYPE="mysql"] has the
    database dump invoked exactly once. *)
Theorem opt_in_gate {U : Unicode} {G : Gzip}
    (dir : str) (c : container) (w : World) :
  (opted_in c = true <->
     str_lower (dict_get (labels c) (py "DCBAK") []) = py "true")
  /\ (forall v, labels c !! py "DCBAK" = Some v -> forallb is_ascii v = true ->
        (opted_in c = true <-> List.map ascii_lower v = py "true"))
  /\ (opted_in c = false -> process_container dir c w = (Ok tt, w))
  /\ (labels c !! py "DCBAK" = None -> process_container dir c w = (Ok tt, w))
  /\ (labels c !! py "DCBAK" = Some (py "false") ->
        process_container dir c w = (Ok tt, w))
  /\ (w_invoked (snd (process_container dir c w)) <> w_invoked w ->
        opted_in c = true)
  /\ (w_fs (snd (process_container dir c w)) <> w_fs w -> opted_in c = true)
  /\ (labels c !! py "DCBAK" = Some (py "TRUE") ->
      labels c !! py "DCBAK-TYPE" = Some (py "mysql") ->
      exists h,
        w_invoked (snd (process_container dir c w)) =
          w_invoked w ++ (Mysql, name c) :: h
        /\ Forall (fun x => fst x <> Mysql) h).
Proof.
  split; [apply opted_in_iff|]. split; [apply opted_in_ascii|].
  split; [apply not_opted_in_skipped|]. split; [|split; [|split; [|split]]].
  - intros H. now apply not_opted_in_skipped, opted_in_absent.
  - intros H. apply not_opted_in_skipped, not_true_is_false.
    rewrite (opted_in_ascii c (py "false") H eq_refl). discriminate.
  - intros H. destruct (opted_in c) eqn:E; [reflexivity|].
    rewrite (not_opted_in_skipped dir c w E) in H. now contradiction H.
  - intros H. destruct (opted_in c) eqn:E; [reflexivity|].
    rewrite (not_opted_in_skipped dir c w E) in H. now contradiction H.
  - intros Hopt Htype.
    assert (Hin : opted_in c = true)
      by (now apply (opted_in_ascii c (py "TRUE") Hopt eq_refl)).
    rewrite process_container_invoked, Hin.
    unfold dump_part. rewrite (dump_strategy_mysql c Htype).
    eexists. split; [reflexivity|].
    destruct (is_Ok _); [apply volume_part_not_mysql | constructor].
Qed.

(** The loop body on the host with [/backup]: [cache], which has no [DCBAK]
    label, and [proxy], with [DCBAK="false"], leave the world as it is; [db],
    with [DCBAK="TRUE"] and [DCBAK-TYPE="mysql"], has [backup_mysql] invoked
    once. *)
Lemma opt_in_gate_witness :
  process_container (py "/backup") Scenario.cache (Scenario.host [])
    = (Ok tt, Scenario.host [])
  /\ process_container (py "/backup") Scenario.proxy (Scenario.host [])
    = (Ok tt, Scenario.host [])
  /\ exists h,
       w_invoked (snd (process_container (py "/backup") Scenario.db (Scenario.host [])))
         = (Mysql, py "db") :: h
       /\ Forall (fun x => fst x <> Mysql) h.
Proof.
  split; [|split].
  - destruct (@opt_in_gate ascii_unicode stored_gzip (py "/backup")
                Scenario.cache (Scenario.host []))
      as (_ & _ & _ & H & _).
    apply H. vm_compute. reflexivity.
  - destruct (@opt_in_gate ascii_unicode stored_gzip (py "/backup")
                Scenario.proxy (Scenario.host []))
      as (_ & _ & _ & _ & H & _).
    apply H. vm_compute. reflexivity.
  - destruct (@opt_in_gate ascii_unicode stored_gzip (py "/backup")
                Scenario.db (Scenario.host []))
      as (_ & _ & _ & _ & _ & _ & _ & H).
    apply H; vm_compute; reflexivity.
Defined.

(** At noon of 7 March 2024, in [/backup], the dump of [db] writes nothing
    but [/backup/mysql_backup_db_20240307_123005.sql.gz]. *)
Lemma artifact_path_scheme_witness :
  is_timestamp (py "20240307_123005") = true
  /\ wrote_only (backup_mysql Scenario.db (py "/backup") (Scenario.host []))
       (Scenario.host [])
       (py "/backup/mysql_backup_db_20240307_123005.sql.gz").
Proof.
  destruct (@artifact_path_scheme ascii_unicode stored_gzip true Scenario.db
              (py "/data") (Scenario.host []) eq_refl)
    as (Hts & Hmysql & _).
  split; [exact Hts | exact Hmysql].
Defined.

(** The loop over [db_bare_env], whose dump raises [ValueError], and then
    [web]: the error is logged with the name [db], the loop returns, and the
    dump of [web] is invoked after the failure. *)
Lemma container_isolation_witness :
  let final :=
    for_containers (py "/backup") [Scenario.db_bare_env; Scenario.web]
      (Scenario.host []) in
  fst final = Ok tt
  /\ (ERROR,
      py "Error processing container db: dictionary update sequence element #0 has length 1; 2 is required")
     ∈ w_log (snd final)
  /\ exists h1 h2,
       w_invoked (snd final) = [(Mysql, py "db")] ++ h1 ++ (Django, py "web") :: h2.
Proof.
  pose proof (@container_isolation ascii_unicode stored_gzip (py "/backup") []
                Scenario.db_bare_env [Scenario.web] (Scenario.host [])
                (ValueError
                   (py "dictionary update sequence element #0 has length 1; 2 is required"))
                (snd (dispatch Scenario.db_bare_env (py "/backup")
                        (announced Scenario.db_bare_env (Scenario.host []))))
                ltac:(vm_compute; reflexivity) ltac:(vm_compute; reflexivity))
    as (_ & _ & Hret & Hlog & Hlater).
  split; [exact Hret|]. split; [exact Hlog|].
  apply (Hlater Scenario.web (Django, py "web")).
  - apply list_elem_of_singleton. reflexivity.
  - vm_compute. reflexivity.
  - left. apply list_elem_of_singleton. reflexivity.
Defined.

(** ** A dump and a volume archive for one container *)

Lemma is_dir_insert_ne (fs : gmap str node) (p q : str) (n : node) :
  p <> q -> is_dir (<[q := n]> fs) p = is_dir fs p.
Proof. intros H. unfold is_dir. now rewrite lookup_insert_ne. Qed.

Lemma path_join_inj (dir a b : str) :
  plain_dir dir -> no_slash a -> no_slash b ->
  path_join dir a = path_join dir b -> a = b.
Proof.
  intros Hd Ha Hb. rewrite !path_join_no_slash by assumption.
  intros H. apply app_inv_head in H. now injection H.
Qed.

Section BothFacts.
Context {U : Unicode} {G : Gzip}.

Lemma django_volume_paths_differ (dir : str) (c : container) (vol : str)
    (dt1 dt2 : datetime) :
  plain_dir dir ->
  django_backup_file dir c (strftime dt1) <> volume_backup_file dir c vol (strftime dt2).
Proof.
  intros Hd H. unfold django_backup_file, volume_backup_file in H.
  apply path_join_inj in H;
    [discriminate | assumption | apply django_name_no_slash
    | apply volume_name_no_slash].
Qed.

Lemma backup_django_success (c : container) (dir : str) (w : World) (out : bytes) :
  exec_run c dumpdata_cmd [] = Ok (0%Z, out) ->
  open_wb_error (w_fs w) (django_backup_file dir c (timestamp_at w)) = None ->
  backup_django c dir w =
  (Ok true,
   add_log INFO
     (py "Django backup saved to " ++ django_backup_file dir c (timestamp_at w))
     (set_fs <[django_backup_file dir c (timestamp_at w) :=
                 File (gz_close (gz_write gz_init out))]>
        (entered Django c w))).
Proof.
  intros Hexec Hopen. rewrite backup_django_run. cbv zeta. rewrite Hexec.
  unfold dump_outcome. simpl fst. simpl snd.
  change (w_fs (entered Django c w)) with (w_fs w). now rewrite Hopen.
Qed.

Lemma dispatch_dump_django (c : container) (dir : str) (w : World) :
  dump_strategy c = Some Django ->
  dispatch_dump c dir w =
  match backup_django c dir (add_log INFO (py " > Django Backup") w) with
  | (Ok _, w') => (Ok tt, w')
  | (Raise e, w') => (Raise e, w')
  end.
Proof. intros H. rewrite dispatch_dump_run. now rewrite H. Qed.

Lemma volume_label_data (c : container) :
  labels c !! py "DCBAK-VOLUME" = Some (py "/data") ->
  volume_label c = Some (py "/data").
Proof. intros H. unfold volume_label. now rewrite H. Qed.

End BothFacts.

(** C4, as the script has it.  The two dispatches are separate tests in one
    [try] block: an opted-in container has the strategy of its [DCBAK-TYPE]
    invoked, and then, if that call returns, the volume archive of its
    [DCBAK-VOLUME].  With [DCBAK-TYPE="django"] and [DCBAK-VOLUME="/data"]:
    [backup_django] is invoked; when it returns, [backup_volume] is invoked
    too; and when the dump exits with status 0, the fetch hands back a
    stream, the backup directory exists and no directory has the name of an
    artifact, the run leaves two distinct files, the dump and an archive
    that decompresses to the chunks fetched. *)
Theorem dump_then_volume {U : Unicode} {G : Gzip}
    (dir : str) (c : container) (w : World) :
  let r := process_container dir c w in
  let w_dump := add_log INFO (py " > Django Backup") (announced c w) in
  (opted_in c = true ->
     w_invoked (snd r) =
       w_invoked w ++ dump_part c ++
       (if is_Ok (fst (dispatch_dump c dir (announced c w)))
        then volume_part c else []))
  /\ (opted_in c = true ->
      labels c !! py "DCBAK-TYPE" = Some (py "django") ->
      labels c !! py "DCBAK-VOLUME" = Some (py "/data") ->
      (exists h, w_invoked (snd r) = w_invoked w ++ (Django, name c) :: h)
      /\ (is_Ok (fst (backup_django c dir w_dump)) = true ->
          w_invoked (snd r) =
            w_invoked w ++ [(Django, name c); (Volume, name c)])
      /\ (forall out chunks fin,
            exec_run c dumpdata_cmd [] = Ok (0%Z, out) ->
            get_archive c (py "/data") = Ok (chunks, fin) ->
            plain_dir dir -> is_dir (w_fs w) dir = true ->
            let p1 := django_backup_file dir c (timestamp_at w) in
            let p2 := volume_backup_file dir c (py "/data") (next_timestamp w) in
            is_dir (w_fs w) p1 = false -> is_dir (w_fs w) p2 = false ->
            p1 <> p2
            /\ w_fs (snd r) !! p1 = Some (File (gz_close (gz_write gz_init out)))
            /\ exists file,
                 w_fs (snd r) !! p2 = Some (File file)
                 /\ gunzip file = Some (List.concat chunks))).
Proof.
  intros r w_dump. split.
  { intros Hin. unfold r. rewrite process_container_invoked. now rewrite Hin. }
  intros Hin Htype Hvol.
  pose proof (dump_strategy_django c Htype) as Hd.
  pose proof (volume_label_data c Hvol) as Hv.
  assert (Hinv : w_invoked (snd r) =
            w_invoked w ++ [(Django, name c)] ++
            (if is_Ok (fst (backup_django c dir w_dump))
             then [(Volume, name c)] else [])).
  { unfold r. rewrite process_container_invoked, Hin.
    unfold dump_part, volume_part. rewrite Hd, Hv.
    rewrite (dispatch_dump_django c dir _ Hd). fold w_dump.
    destruct (backup_django c dir w_dump) as [[b|e] w']; reflexivity. }
  split; [|split].
  - rewrite Hinv. eexists. reflexivity.
  - intros Hok. rewrite Hinv, Hok. reflexivity.
  - intros out chunks fin Hexec Hget Hplain Hdir p1 p2 Hp1 Hp2.
    assert (Hne : p1 <> p2) by (now apply django_volume_paths_differ).
    assert (Hopen1 : open_wb_error (w_fs w_dump)
                       (django_backup_file dir c (timestamp_at w_dump)) = None).
    { apply open_in_dir; auto. apply django_name_no_slash. }
    split; [exact Hne|].
    unfold r. rewrite process_container_run, Hin, dispatch_run.
    rewrite (dispatch_dump_django c dir _ Hd). fold w_dump.
    rewrite (backup_django_success c dir w_dump out Hexec Hopen1).
    rewrite dispatch_volume_run, Hv. cbv beta iota.
    rewrite backup_volume_run. cbv zeta. rewrite Hget.
    change (timestamp_at w_dump) with (timestamp_at w).
    fold p1.
    match goal with
    | |- context [volume_backup_file dir c (py "/data") (timestamp_at ?x)] =>
        change (volume_backup_file dir c (py "/data") (timestamp_at x)) with p2
    end.
    match goal with
    | |- context [open_wb_error (w_fs ?x) p2] =>
        change (w_fs x) with (<[p1 := File (gz_close (gz_write gz_init out))]> (w_fs w))
    end.
    assert (Hopen2 : open_wb_error
                       (<[p1 := File (gz_close (gz_write gz_init out))]> (w_fs w)) p2
                     = None).
    { apply open_in_dir; auto.
      - apply volume_name_no_slash.
      - rewrite is_dir_insert_ne; [exact Hdir|].
        intros H. symmetry in H. revert H. apply path_join_longer; auto.
        apply django_name_no_slash.
      - rewrite is_dir_insert_ne; [exact Hp2 | auto]. }
    rewrite Hopen2.
    simpl fst. simpl snd.
    match goal with
    | |- context [w_fs ?x !! p1] =>
        replace (w_fs x) with
          (<[p2 := File (gz_close (fold_left gz_write chunks gz_init))]>
             (<[p1 := File (gz_close (gz_write gz_init out))]> (w_fs w)))
          by (destruct fin; reflexivity)
    end.
    split.
    + rewrite lookup_insert_ne by auto. apply lookup_insert_eq.
    + eexists. split; [apply lookup_insert_eq | apply gunzip_written_chunks].
Qed.

(** On the host with [/backup], the loop body on [web] invokes both
    strategies and leaves the dump and the archive, two files. *)
Lemma dump_then_volume_witness :
  let r := process_container (py "/backup") Scenario.web (Scenario.host []) in
  w_invoked (snd r) = [(Django, py "web"); (Volume, py "web")]
  /\ py "/backup/django_backup_web_20240307_123005.json.gz"
     <> py "/backup/volume_backup_web_data_20240307_123005.tar.gz"
  /\ exists file,
       w_fs (snd r) !! py "/backup/volume_backup_web_data_20240307_123005.tar.gz"
         = Some (File file)
       /\ gunzip file = Some Scenario.abcdef.
Proof.
  destruct (@dump_then_volume ascii_unicode stored_gzip (py "/backup")
              Scenario.web (Scenario.host []))
    as (_ & H).
  destruct (H ltac:(vm_compute; reflexivity) ltac:(vm_compute; reflexivity)
              ltac:(vm_compute; reflexivity))
    as (_ & Hboth & Hfiles).
  destruct (Hfiles Scenario.abc [Scenario.abc; Scenario.def] None eq_refl eq_refl
              ltac:(split; [discriminate | reflexivity])
              ltac:(vm_compute; reflexivity) ltac:(vm_compute; reflexivity)
              ltac:(vm_compute; reflexivity))
    as (Hne & _ & file & Hfile & Hgunzip).
  split; [exact (Hboth eq_refl)|]. split; [exact Hne|].
  exists file. split; [exact Hfile | exact Hgunzip].
Defined.

(** C4, refuted as stated: [web_paused] carries [DCBAK-TYPE="django"] and
    [DCBAK-VOLUME="/data"], its [exec_run] raises, and the loop body invokes
    [backup_django] alone: [backup_volume] is not run and no file is
    written. *)
Lemma dump_then_volume_counterexample :
  let r := process_container (py "/backup") Scenario.web_paused (Scenario.host []) in
  opted_in Scenario.web_paused = true
  /\ labels Scenario.web_paused !! py "DCBAK-TYPE" = Some (py "django")
  /\ labels Scenario.web_paused !! py "DCBAK-VOLUME" = Some (py "/data")
  /\ w_invoked (snd r) = [(Django, py "web")]
  /\ ~ (Volume, py "web") ∈ w_invoked (snd r)
  /\ w_fs (snd r) = w_fs (Scenario.host []).
Proof.
  assert (H : w_invoked (snd (process_container (py "/backup") Scenario.web_paused
                                (Scenario.host []))) = [(Django, py "web")])
    by (vm_compute; reflexivity).
  cbv zeta. repeat split; try (vm_compute; reflexivity).
  rewrite H. intros Hin. apply list_elem_of_singleton in Hin. discriminate.
Qed.

(** ** The run of [main] *)

Lemma mkdir_parents_unfold (fuel : nat) (p : str) (fs : gmap str node) :
  mkdir_parents fuel p fs =
  if is_dir fs p then Ok fs
  else match fs !! p with
  | Some _ => Raise (FileExistsError p)
  | None =>
      if is_dir fs (dirname p) then Ok (<[p := Dir]> fs)
      else match fs !! dirname p with
      | Some _ => Raise (NotADirectoryError p)
      | None =>
          match fuel with
          | O => Raise (FileNotFoundError p)
          | S fuel' =>
              match mkdir_parents fuel' (dirname p) fs with
              | Ok fs' => Ok (<[p := Dir]> fs')
              | Raise e => Raise e
              end
          end
      end
  end.
Proof. destruct fuel; reflexivity. Qed.

Lemma is_dir_insert_dir (fs : gmap str node) (p : str) :
  is_dir (<[p := Dir]> fs) p = true.
Proof.
  unfold is_dir. rewrite lookup_insert_eq. now rewrite !orb_true_r.
Qed.

(** The directory [main] chooses has the root or the working directory as
    its parent, so that creating it needs no ancestor. *)
Lemma mkdir_backup_dir (fuel : nat) (e : bool) (fs : gmap str node) :
  mkdir_parents fuel (backup_dir_if e) fs =
  if is_dir fs (backup_dir_if e) then Ok fs
  else match fs !! backup_dir_if e with
  | Some _ => Raise (FileExistsError (backup_dir_if e))
  | None => Ok (<[backup_dir_if e := Dir]> fs)
  end.
Proof.
  rewrite mkdir_parents_unfold.
  assert (H : is_dir fs (dirname (backup_dir_if e)) = true)
    by (destruct e; reflexivity).
  now rewrite H.
Qed.

Lemma mkdir_backup_dir_is_dir (fuel : nat) (e : bool) (fs fs' : gmap str node) :
  mkdir_parents fuel (backup_dir_if e) fs = Ok fs' ->
  is_dir fs' (backup_dir_if e) = true.
Proof.
  rewrite mkdir_backup_dir.
  destruct (is_dir fs (backup_dir_if e)) eqn:Hd.
  - now intros [= <-].
  - destruct (fs !! backup_dir_if e); [discriminate|].
    intros [= <-]. apply is_dir_insert_dir.
Qed.

Lemma mkdir_backup_dir_same_files (fuel : nat) (e : bool) (fs fs' : gmap str node) :
  mkdir_parents fuel (backup_dir_if e) fs = Ok fs' -> same_files fs fs'.
Proof.
  rewrite mkdir_backup_dir.
  destruct (is_dir fs (backup_dir_if e)) eqn:Hd.
  - intros [= <-]. now intros p content.
  - destruct (fs !! backup_dir_if e) eqn:Hl; [discriminate|].
    intros [= <-] p content.
    destruct (decide (backup_dir_if e = p)) as [<-|Hne].
    + rewrite lookup_insert_eq, Hl. split; discriminate.
    + now rewrite lookup_insert_ne.
Qed.

Section MainFacts.
Context {U : Unicode} {G : Gzip}.

(** [main], step by step: the directory, the connection, the loop. *)
Lemma main_run (w : World) :
  main w =
  let dir := backup_dir_if (path_exists (w_fs w) (py "/backup")) in
  match mkdir_parents (length dir) dir (w_fs w) with
  | Raise e => (Raise e, w)
  | Ok fs' =>
      let w1 := set_fs (fun _ => fs') w in
      match w_docker w with
      | inl msg => (Ok tt, add_log ERROR (connect_error_msg msg) w1)
      | inr cs => for_containers dir cs w1
      end
  end.
Proof.
  unfold main, choose_backup_dir, os_path_exists, ensure_backup_dir,
    docker_containers, try_except, mbind, M_bind, bind, mret, M_ret, ret,
    logger_error.
  cbv beta iota zeta.
  destruct (mkdir_parents _ _ (w_fs w)) as [fs'|e]; [|reflexivity].
  cbv beta iota. change (w_docker (set_fs (fun _ => fs') w)) with (w_docker w).
  destruct (w_docker w) as [msg|cs]; reflexivity.
Qed.

(** A file written where [open] allows it leaves the directories alone. *)
Lemma open_ok_not_dir (fs : gmap str node) (p : str) :
  open_wb_error fs p = None -> is_dir fs p = false.
Proof. unfold open_wb_error. now destruct (is_dir fs p). Qed.

Lemma write_keeps_dir (fs : gmap str node) (p d : str) (content : bytes) :
  open_wb_error fs p = None -> is_dir fs d = true ->
  is_dir (<[p := File content]> fs) d = true.
Proof.
  intros Hopen Hd. rewrite is_dir_insert_ne; [exact Hd|].
  intros ->. apply open_ok_not_dir in Hopen. congruence.
Qed.

Lemma dump_outcome_keeps_dir (kind : string) (c : container) (path : str)
    (r : Z * bytes) (w1 : World) (d : str) :
  is_dir (w_fs w1) d = true ->
  is_dir (w_fs (snd (dump_outcome kind c path r w1))) d = true.
Proof.
  intros Hd. unfold dump_outcome. destruct (fst r =? 0)%Z.
  - destruct (open_wb_error (w_fs w1) path) eqn:Ho; simpl; [exact Hd|].
    now apply write_keeps_dir.
  - destruct (decode (snd r)); exact Hd.
Qed.

Lemma backup_mysql_keeps_dir (c : container) (dir : str) (w : World) (d : str) :
  is_dir (w_fs w) d = true -> is_dir (w_fs (snd (backup_mysql c dir w))) d = true.
Proof.
  intros Hd. rewrite backup_mysql_run. cbv zeta.
  destruct (dict_of_env 0 (attrs_Config_Env c) ∅) as [env|e]; [|exact Hd].
  destruct (exec_run c _ _) as [r|e]; [|exact Hd].
  now apply dump_outcome_keeps_dir.
Qed.

Lemma backup_django_keeps_dir (c : container) (dir : str) (w : World) (d : str) :
  is_dir (w_fs w) d = true -> is_dir (w_fs (snd (backup_django c dir w))) d = true.
Proof.
  intros Hd. rewrite backup_django_run. cbv zeta.
  destruct (exec_run c _ _) as [r|e]; [|exact Hd].
  now apply dump_outcome_keeps_dir.
Qed.

Lemma backup_volume_keeps_dir (c : container) (vol dir : str) (w : World) (d : str) :
  is_dir (w_fs w) d = true ->
  is_dir (w_fs (snd (backup_volume c vol dir w))) d = true.
Proof.
  intros Hd. rewrite backup_volume_run. cbv zeta.
  destruct (get_archive c vol) as [[chunks fin]|e]; [|exact Hd].
  destruct (open_wb_error _ _) eqn:Ho; [exact Hd|].
  destruct fin; simpl; now apply write_keeps_dir.
Qed.

Lemma dispatch_keeps_dir (c : container) (dir : str) (w : World) (d : str) :
  is_dir (w_fs w) d = true -> is_dir (w_fs (snd (dispatch c dir w))) d = true.
Proof.
  intros Hd. rewrite dispatch_run.
  assert (Hdump : is_dir (w_fs (snd (dispatch_dump c dir w))) d = true).
  { rewrite dispatch_dump_run. destruct (dump_strategy c) as [[| |]|]; try exact Hd.
    - pose proof (backup_mysql_keeps_dir c dir
                    (add_log INFO (py " > MySQL Backup") w) d Hd) as H.
      destruct (backup_mysql c dir _) as [[b|e] w']; exact H.
    - pose proof (backup_django_keeps_dir c dir
                    (add_log INFO (py " > Django Backup") w) d Hd) as H.
      destruct (backup_django c dir _) as [[b|e] w']; exact H. }
  destruct (dispatch_dump c dir w) as [[[]|e] w']; [|exact Hdump].
  simpl in *. rewrite dispatch_volume_run.
  destruct (volume_label c) as [vol|]; [|exact Hdump].
  simpl. now apply backup_volume_keeps_dir.
Qed.

Lemma process_container_keeps_dir (dir : str) (c : container) (w : World) (d : str) :
  is_dir (w_fs w) d = true ->
  is_dir (w_fs (snd (process_container dir c w))) d = true.
Proof.
  intros Hd. rewrite process_container_run. destruct (opted_in c); [|exact Hd].
  pose proof (dispatch_keeps_dir c dir (announced c w) d Hd) as H.
  destruct (dispatch c dir (announced c w)) as [[[]|e] w']; exact H.
Qed.

Lemma for_containers_keeps_dir (dir : str) (cs : list container) (w : World) (d : str) :
  is_dir (w_fs w) d = true ->
  is_dir (w_fs (snd (for_containers dir cs w))) d = true.
Proof.
  revert w. induction cs as [|c cs IH]; intros w Hd; [exact Hd|].
  rewrite for_containers_cons. now apply IH, process_container_keeps_dir.
Qed.

End MainFacts.

(** C5, as the script has it.  Once the backup directory is in place: if
    the connection to the daemon fails, [main] logs the failure and returns
    with no strategy invoked and the regular files of the host as they
    were; if the daemon answers, [main] runs the loop over every container
    and returns normally.  So the failed connection is the one condition
    that ends the run between the creation of the directory and the end of
    the loop. *)
Theorem connection_failure {U : Unicode} {G : Gzip}
    (w : World) (fs' : gmap str node) :
  let dir := backup_dir_if (path_exists (w_fs w) (py "/backup")) in
  mkdir_parents (length dir) dir (w_fs w) = Ok fs' ->
  (forall msg, w_docker w = inl msg ->
     main w = (Ok tt, add_log ERROR (connect_error_msg msg) (set_fs (fun _ => fs') w))
     /\ w_invoked (snd (main w)) = w_invoked w
     /\ same_files (w_fs w) (w_fs (snd (main w))))
  /\ (forall cs, w_docker w = inr cs ->
     main w = for_containers dir cs (set_fs (fun _ => fs') w)
     /\ fst (main w) = Ok tt).
Proof.
  intros dir Hmk. split.
  - intros msg Hd. rewrite main_run. cbv zeta. fold dir. rewrite Hmk, Hd.
    split; [reflexivity|]. split; [reflexivity|].
    simpl. now apply (mkdir_backup_dir_same_files (length dir) _ _ _ Hmk).
  - intros cs Hd. rewrite main_run. cbv zeta. fold dir. rewrite Hmk, Hd.
    split; [reflexivity | apply for_containers_returns].
Qed.

(** On the host whose daemon cannot be reached, [main] creates [./backup],
    logs the failure and returns; no strategy is invoked. *)
Lemma connection_failure_witness :
  fst (main Scenario.host_offline) = Ok tt
  /\ w_log (snd (main Scenario.host_offline))
     = [(ERROR, py "Failed to connect to Docker: Error while fetching server API version")]
  /\ w_invoked (snd (main Scenario.host_offline)) = []
  /\ same_files (w_fs Scenario.host_offline) (w_fs (snd (main Scenario.host_offline))).
Proof.
  assert (Hmk : mkdir_parents (length (py "./backup")) (py "./backup")
                  (w_fs Scenario.host_offline)
                = Ok (<[py "./backup" := Dir]> (w_fs Scenario.host_offline)))
    by (vm_compute; reflexivity).
  destruct (@connection_failure ascii_unicode stored_gzip Scenario.host_offline
              _ Hmk)
    as (Hfail & _).
  destruct (Hfail (py "Error while fetching server API version") eq_refl)
    as (Hmain & Hinv & Hfiles).
  rewrite Hmain in *. split; [reflexivity|]. split; [reflexivity|].
  split; [exact Hinv | exact Hfiles].
Defined.

(** C5, refuted as stated: on a host where a regular file sits at
    [./backup] and the daemon answers, [main] ends with the
    [FileExistsError] of [mkdir] before it connects: a fatal condition that
    is no connection failure. *)
Lemma connection_failure_counterexample :
  let w := Scenario.host_file_at_fallback [Scenario.db] in
  w_docker w = inr [Scenario.db]
  /\ fst (main w) = Raise (FileExistsError (py "./backup"))
  /\ w_invoked (snd (main w)) = []
  /\ w_log (snd (main w)) = [].
Proof. cbv zeta. repeat split; vm_compute; reflexivity. Qed.

(** C10, as the script has it.  [main] chooses [/backup] if that path
    exists and [./backup] otherwise, and makes the directory before it
    connects.  If a regular file has that name, [mkdir] raises
    [FileExistsError] and [main] ends there, the host unchanged.  Otherwise
    the directory exists in the world in which the connection is attempted,
    [main] returns normally, and the directory exists after the run, be it
    ended by the failed connection or by the end of the loop. *)
Theorem backup_dir_created {U : Unicode} {G : Gzip} (w : World) :
  let dir := backup_dir_if (path_exists (w_fs w) (py "/backup")) in
  (forall content, w_fs w !! dir = Some (File content) ->
     main w = (Raise (FileExistsError dir), w))
  /\ ((forall content, w_fs w !! dir <> Some (File content)) ->
      (exists fs',
         is_dir fs' dir = true
         /\ same_files (w_fs w) fs'
         /\ main w =
            match w_docker w with
            | inl msg =>
                (Ok tt, add_log ERROR (connect_error_msg msg) (set_fs (fun _ => fs') w))
            | inr cs => for_containers dir cs (set_fs (fun _ => fs') w)
            end)
      /\ fst (main w) = Ok tt
      /\ is_dir (w_fs (snd (main w))) dir = true).
Proof.
  intros dir. split.
  - intros content Hfile. rewrite main_run. cbv zeta. fold dir.
    unfold dir at 1 2. rewrite mkdir_backup_dir. fold dir.
    assert (Hnd : is_dir (w_fs w) dir = false).
    { unfold is_dir. rewrite Hfile.
      unfold dir. now destruct (path_exists (w_fs w) (py "/backup")). }
    now rewrite Hnd, Hfile.
  - intros Hfree.
    assert (Hmk : exists fs', mkdir_parents (length dir) dir (w_fs w) = Ok fs').
    { unfold dir at 2. rewrite mkdir_backup_dir. fold dir.
      destruct (is_dir (w_fs w) dir) eqn:Hd; [now eexists|].
      destruct (w_fs w !! dir) as [[content|]|] eqn:Hl.
      - now contradiction (Hfree content).
      - unfold is_dir in Hd. rewrite Hl in Hd.
        now rewrite !orb_true_r in Hd.
      - now eexists. }
    destruct Hmk as [fs' Hmk].
    assert (Hdir : is_dir fs' dir = true)
      by (now apply (mkdir_backup_dir_is_dir (length dir) _ (w_fs w))).
    assert (Hmain : main w =
              match w_docker w with
              | inl msg =>
                  (Ok tt, add_log ERROR (connect_error_msg msg) (set_fs (fun _ => fs') w))
              | inr cs => for_containers dir cs (set_fs (fun _ => fs') w)
              end).
    { rewrite main_run. cbv zeta. fold dir. now rewrite Hmk. }
    split; [|split].
    + exists fs'. split; [exact Hdir|]. split; [|exact Hmain].
      now apply (mkdir_backup_dir_same_files (length dir) _ _ _ Hmk).
    + rewrite Hmain. destruct (w_docker w) as [msg|cs];
        [reflexivity | apply for_containers_returns].
    + rewrite Hmain. destruct (w_docker w) as [msg|cs]; [exact Hdir|].
      now apply for_containers_keeps_dir.
Qed.

(** On the host whose daemon cannot be reached and that has neither
    [/backup] nor [./backup], the run ends at the failed connection and
    [./backup] exists after it. *)
Lemma backup_dir_created_witness :
  fst (main Scenario.host_offline) = Ok tt
  /\ is_dir (w_fs (snd (main Scenario.host_offline))) (py "./backup") = true.
Proof.
  destruct (@backup_dir_created ascii_unicode stored_gzip Scenario.host_offline)
    as (_ & H).
  destruct H as (_ & Hret & Hdir).
  - intros content. vm_compute. discriminate.
  - split; [exact Hret | exact Hdir].
Defined.

(** C10, refuted as stated: on a host where a regular file sits at
    [/backup], [main] chooses [/backup], [mkdir] raises [FileExistsError],
    and after the run no directory [/backup] exists. *)
Lemma backup_dir_created_counterexample :
  let w := Scenario.host_file_at_backup [Scenario.db] in
  path_exists (w_fs w) (py "/backup") = true
  /\ fst (main w) = Raise (FileExistsError (py "/backup"))
  /\ is_dir (w_fs (snd (main w))) (py "/backup") = false
  /\ w_fs (snd (main w)) !! py "/backup" = Some (File []).
Proof. cbv zeta. repeat split; vm_compute; reflexivity. Qed.

(** * Further properties *)

(** ** The environment list of a container *)

Lemma split_once_none (item : str) :
  split_once item = None <-> has_equals item = false.
Proof.
  induction item as [|c t IH]; simpl; [tauto|].
  destruct (c =? equals_sign); simpl; [split; discriminate|].
  destruct (split_once t) as [[k v]|].
  - split; [discriminate|]. intros H. apply IH in H. discriminate.
  - tauto.
Qed.

Lemma split_once_first (k v : str) :
  Forall (fun c => c <> equals_sign) k ->
  split_once (k ++ equals_sign :: v) = Some (k, v).
Proof.
  induction 1 as [|c t Hc Ht IH]; simpl; [reflexivity|].
  apply N.eqb_neq in Hc. now rewrite Hc, IH.
Qed.

Lemma dict_of_env_good (items : list str) :
  forall i d, forallb has_equals items = true ->
              exists d', dict_of_env i items d = Ok d'.
Proof.
  induction items as [|item rest IH]; intros i d H; simpl; [now eexists|].
  simpl in H. apply andb_prop in H as [Hitem Hrest].
  destruct (split_once item) as [[k v]|] eqn:E.
  - now apply IH.
  - apply split_once_none in E. congruence.
Qed.

Lemma dict_of_env_bad (good : list str) (item : str) (rest : list str) :
  forall i d, forallb has_equals good = true -> has_equals item = false ->
    dict_of_env i (good ++ item :: rest) d
    = Raise (ValueError (dict_error_msg (i + N.of_nat (length good)))).
Proof.
  induction good as [|g good IH]; intros i d Hgood Hitem;
    cbn [app dict_of_env length].
  - apply split_once_none in Hitem. rewrite Hitem.
    replace (i + N.of_nat 0) with i by lia. reflexivity.
  - cbn [forallb] in Hgood. apply andb_prop in Hgood as [Hg Hgood].
    destruct (split_once g) as [[k v]|] eqn:E.
    + rewrite IH by assumption.
      replace (i + 1 + N.of_nat (length good)) with (i + N.of_nat (S (length good)))
        by lia.
      reflexivity.
    + apply split_once_none in E. congruence.
Qed.

(** X1. [dict(item.split('=', 1) for item in container_env)] succeeds
    exactly when every entry holds an ['=']; otherwise it raises the
    [ValueError] that names the position of the first entry without one,
    whatever comes after it. *)
Theorem env_dict_parses (items : list str) :
  ((exists d, dict_of_env 0 items ∅ = Ok d) <-> forallb has_equals items = true)
  /\ (forall good item rest,
        items = good ++ item :: rest ->
        forallb has_equals good = true -> has_equals item = false ->
        dict_of_env 0 items ∅
        = Raise (ValueError (dict_error_msg (N.of_nat (length good))))).
Proof.
  split.
  - split; [|apply dict_of_env_good].
    intros [d Hd]. destruct (forallb has_equals items) eqn:E; [reflexivity|].
    exfalso. revert d Hd. generalize (∅ : gmap str str), 0.
    induction items as [|item rest IH]; intros d0 i d Hd; [discriminate|].
    simpl in *. destruct (split_once item) as [[k v]|] eqn:Es; [|discriminate].
    destruct (has_equals item) eqn:Eh.
    + simpl in E. eapply IH; eauto.
    + apply split_once_none in Eh. congruence.
  - intros good item rest -> Hgood Hitem.
    now rewrite dict_of_env_bad.
Qed.

(** The list [A=1, DEBUG, B=2] fails at entry number 1. *)
Lemma env_dict_parses_witness :
  dict_of_env 0 [py "A=1"; py "DEBUG"; py "B=2"] ∅
  = Raise (ValueError (dict_error_msg 1)).
Proof.
  destruct (env_dict_parses [py "A=1"; py "DEBUG"; py "B=2"]) as (_ & H).
  exact (H [py "A=1"] (py "DEBUG") [py "B=2"] eq_refl eq_refl eq_refl).
Defined.

Lemma dict_of_env_lookup (items : list str) (key : str) :
  forall i d d', dict_of_env i items d = Ok d' ->
    d' !! key = match env_lookup items key with
                | Some v => Some v
                | None => d !! key
                end.
Proof.
  induction items as [|item rest IH]; intros i d d' H; simpl in *.
  - now injection H as <-.
  - destruct (split_once item) as [[k v]|]; [|discriminate].
    rewrite (IH _ _ _ H). destruct (env_lookup rest key); [reflexivity|].
    unfold str_eqb. destruct (decide (k = key)) as [->|Hne].
    + rewrite bool_decide_eq_true_2 by reflexivity. apply lookup_insert_eq.
    + rewrite bool_decide_eq_false_2 by assumption. now apply lookup_insert_ne.
Qed.

(** X2. An entry [key=value] is split at its first ['='], so that a value
    may hold ['='] itself; and in the dictionary built from the list a key
    has the value of its last entry, a key with no entry being absent. *)
Theorem env_dict_last_wins (items : list str) (d : gmap str str) :
  dict_of_env 0 items ∅ = Ok d ->
  (forall key, d !! key = env_lookup items key)
  /\ (forall key value rest,
        Forall (fun c => c <> equals_sign) key ->
        items = rest ++ [key ++ equals_sign :: value] ->
        d !! key = Some value).
Proof.
  intros Hd.
  assert (Hall : forall key, d !! key = env_lookup items key).
  { intros key. rewrite (dict_of_env_lookup items key _ _ _ Hd).
    destruct (env_lookup items key); [reflexivity | apply lookup_empty]. }
  split; [exact Hall|].
  intros key value rest Hkey ->. rewrite Hall. clear Hall Hd.
  induction rest as [|item rest IH]; simpl.
  - rewrite split_once_first by assumption.
    unfold str_eqb. now rewrite bool_decide_eq_true_2.
  - now rewrite IH.
Qed.

(** With [MYSQL_USER=root] first and [MYSQL_USER=backup=1] last, the user
    is [backup=1]. *)
Lemma env_dict_last_wins_witness :
  exists d,
    dict_of_env 0 [py "MYSQL_USER=root"; py "MYSQL_USER=backup=1"] ∅ = Ok d
    /\ d !! py "MYSQL_USER" = Some (py "backup=1").
Proof.
  eexists. split; [reflexivity|].
  refine (proj2 (env_dict_last_wins
                   [py "MYSQL_USER=root"; py "MYSQL_USER=backup=1"] _ eq_refl)
            (py "MYSQL_USER") (py "backup=1") [py "MYSQL_USER=root"] _ eq_refl).
  repeat constructor; discriminate.
Defined.

(** X3. The password never is part of the command line: the command
    [backup_mysql] hands to [exec_run] is the same whatever
    [MYSQL_PASSWORD] is, and the password travels in the variable
    [MYSQL_PWD] of the environment of the call. *)
Theorem mysql_password_not_in_command (d : gmap str str) (password : str) :
  mysql_cmd_of (<[py "MYSQL_PASSWORD" := password]> d) = mysql_cmd_of d
  /\ mysql_cmd_of (delete (py "MYSQL_PASSWORD") d) = mysql_cmd_of d
  /\ mysql_environment_of (<[py "MYSQL_PASSWORD" := password]> d)
     = [(py "MYSQL_PWD", password)]
  /\ mysql_environment_of (delete (py "MYSQL_PASSWORD") d) = [(py "MYSQL_PWD", [])].
Proof.
  unfold mysql_cmd_of, mysql_environment_of, dict_get.
  rewrite !lookup_insert_ne by discriminate.
  rewrite !lookup_delete_ne by discriminate.
  rewrite lookup_insert_eq, lookup_delete_eq. auto.
Qed.

(** ** Sanitised names *)

Section SanitiseFacts.
Context {U : Unicode}.

Lemma rstrip_sublist (s : str) : rstrip s `sublist_of` s.
Proof.
  induction s as [|c t IH]; simpl; [constructor|].
  destruct (rstrip t) as [|d t'] eqn:E.
  - destruct (isspace c).
    + apply sublist_nil_l.
    + apply sublist_skip, sublist_nil_l.
  - now apply sublist_skip.
Qed.

Lemma filter_sublist (f : char -> bool) (s : str) : List.filter f s `sublist_of` s.
Proof.
  induction s as [|c t IH]; simpl; [constructor|].
  destruct (f c); [now apply sublist_skip | now apply sublist_cons].
Qed.

Lemma rstrip_fixed (s : str) :
  Forall (fun c => isspace c = false) s -> rstrip s = s.
Proof.
  induction 1 as [|c t Hc Ht IH]; simpl; [reflexivity|].
  rewrite IH. destruct t; [now rewrite Hc | reflexivity].
Qed.

Lemma ascii_safe_not_space (c : char) :
  ascii_safe_char c = true -> ascii_isspace c = false.
Proof.
  unfold ascii_safe_char, ascii_isalnum, ascii_isdigit, ascii_isupper,
    ascii_islower, ascii_isspace, underscore, hyphen.
  intros H. apply not_true_is_false. intros Hs.
  repeat match goal with
  | h : (_ || _) = true |- _ => apply orb_prop in h as [h|h]
  | h : (_ && _) = true |- _ => apply andb_prop in h as [? ?]
  | h : (_ <=? _) = true |- _ => apply N.leb_le in h
  | h : (_ =? _) = true |- _ => apply N.eqb_eq in h
  end; lia.
Qed.

Lemma safe_char_ascii (c : char) :
  is_ascii c = true -> safe_char c = ascii_safe_char c.
Proof.
  intros H. unfold safe_char, ascii_safe_char. now rewrite (isalnum_ascii c H).
Qed.

Lemma filter_safe_ascii (s : str) :
  forallb is_ascii s = true ->
  List.filter safe_char s = List.filter ascii_safe_char s.
Proof.
  induction s as [|c t IH]; simpl; [reflexivity|].
  intros H. apply andb_prop in H as [Hc Ht].
  rewrite (safe_char_ascii c Hc), (IH Ht). reflexivity.
Qed.

Lemma filter_ascii_no_space (s : str) :
  forallb is_ascii s = true ->
  Forall (fun c => isspace c = false) (List.filter ascii_safe_char s).
Proof.
  intros H. apply Forall_forall. intros c Hc.
  apply list_elem_of_In, List.filter_In in Hc as [Hin Hsafe].
  rewrite List.forallb_forall in H.
  rewrite (isspace_ascii c (H c Hin)). now apply ascii_safe_not_space.
Qed.

Lemma safe_filename_ascii_filter (s : str) :
  forallb is_ascii s = true ->
  safe_filename s = List.filter ascii_safe_char s.
Proof.
  intros H. unfold safe_filename. rewrite (filter_safe_ascii s H).
  now apply rstrip_fixed, filter_ascii_no_space.
Qed.

End SanitiseFacts.

(** X4. Sanitising only removes characters: [safe_filename s] is a
    subsequence of [s], in the order of [s], and no longer than [s]; the
    empty name stays empty. *)
Theorem safe_filename_sublist {U : Unicode} (s : str) :
  safe_filename s `sublist_of` s
  /\ (length (safe_filename s) <= length s)%nat
  /\ safe_filename [] = [].
Proof.
  assert (H : safe_filename s `sublist_of` s).
  { unfold safe_filename. etrans; [apply rstrip_sublist | apply filter_sublist]. }
  split; [exact H|]. split; [now apply sublist_length | reflexivity].
Qed.

(** X5. On a name of ASCII characters, as the names of Docker containers
    are, [safe_filename] is the filter alone: the closing [rstrip] removes
    nothing, since no character that passes the test is white space.  So
    it keeps exactly the letters, digits, underscores and hyphens, and the
    sanitised form of a concatenation is the concatenation of the
    sanitised forms. *)
Theorem safe_filename_ascii {U : Unicode} (s t : str) :
  forallb is_ascii s = true -> forallb is_ascii t = true ->
  safe_filename s = List.filter ascii_safe_char s
  /\ safe_filename (s ++ t) = safe_filename s ++ safe_filename t.
Proof.
  intros Hs Ht. split; [now apply safe_filename_ascii_filter|].
  assert (Hst : forallb is_ascii (s ++ t) = true).
  { rewrite List.forallb_app. apply andb_true_intro. split; assumption. }
  rewrite (safe_filename_ascii_filter (s ++ t) Hst).
  rewrite (safe_filename_ascii_filter s Hs), (safe_filename_ascii_filter t Ht).
  apply List.filter_app.
Qed.

(** The name [my db.v2] becomes [mydbv2], and with [/data 1 ] appended
    [mydbv2data1]. *)
Lemma safe_filename_ascii_witness :
  safe_filename (py "my db.v2") = py "mydbv2"
  /\ safe_filename (py "my db.v2" ++ py "/data 1 ") = py "mydbv2" ++ py "data1".
Proof.
  destruct (@safe_filename_ascii ascii_unicode (py "my db.v2") (py "/data 1 ")
              eq_refl eq_refl) as [H1 H2].
  split; [exact H1 | exact H2].
Defined.

(** X6. An artifact lies in the backup directory itself, whatever the name
    of the container and the path of the volume are: the directory part of
    its path is the backup directory, since neither a sanitised name nor a
    time stamp holds a ['/'].  No name reaches a subdirectory or leaves the
    directory. *)
Theorem artifact_in_backup_dir {U : Unicode}
    (dir : str) (c : container) (vol : str) (dt : datetime) :
  plain_dir dir ->
  dirname (mysql_backup_file dir c (strftime dt)) = dir
  /\ dirname (django_backup_file dir c (strftime dt)) = dir
  /\ dirname (volume_backup_file dir c vol (strftime dt)) = dir.
Proof.
  intros Hd. unfold mysql_backup_file, django_backup_file, volume_backup_file.
  repeat split; apply dirname_path_join; try assumption.
  - apply mysql_name_no_slash.
  - apply django_name_no_slash.
  - apply volume_name_no_slash.
Qed.

(** A container named [../../etc/passwd] with the volume [/../root] is
    archived in [/backup]. *)
Lemma artifact_in_backup_dir_witness :
  let c := mkContainer (py "../../etc/passwd") ∅ [] Scenario.exec_raises
             Scenario.archive_missing in
  dirname (mysql_backup_file (py "/backup") c (strftime Scenario.noon)) = py "/backup"
  /\ volume_backup_file (py "/backup") c (py "/../root") (strftime Scenario.noon)
     = py "/backup/volume_backup_etcpasswd_root_20240307_123005.tar.gz".
Proof.
  intros c.
  destruct (@artifact_in_backup_dir ascii_unicode (py "/backup") c (py "/../root")
              Scenario.noon ltac:(split; [discriminate | reflexivity]))
    as (Hmysql & _ & _).
  split; [exact Hmysql | vm_compute; reflexivity].
Defined.

(** ** The outcomes of the strategies *)

Lemma utf8_decode_ascii (bs : list N) :
  forall pos, forallb is_ascii bs = true -> utf8_decode_from pos bs = Ok bs.
Proof.
  induction bs as [|b rest IH]; intros pos H; [reflexivity|].
  cbn [forallb] in H. apply andb_prop in H as [Hb Hrest].
  cbn [utf8_decode_from]. unfold is_ascii in Hb. rewrite Hb.
  now rewrite (IH (pos + 1) Hrest).
Qed.

Section OutcomeFacts.
Context {U : Unicode} {G : Gzip}.

Lemma gunzip_written_output (output : bytes) :
  gunzip (gz_close (gz_write gz_init output)) = Some output.
Proof. apply (gunzip_write gz_init output []). apply gunzip_init. Qed.

End OutcomeFacts.

(** X7. The three ways [backup_volume] fails, each ending in [False] and an
    error record that names the volume and the container.  When
    [get_archive] raises, or the artifact cannot be opened, no file is
    written.  When the stream raises after it has yielded chunks, the
    artifact stays behind, closed, holding the chunks fetched so far: a
    truncated archive that is not removed. *)
Theorem volume_failures {U : Unicode} {G : Gzip}
    (c : container) (vol dir : str) (w : World) (e : exn) :
  let path := volume_backup_file dir c vol (timestamp_at w) in
  let failed := add_log ERROR (volume_error_msg c vol e) in
  (get_archive c vol = Raise e ->
     backup_volume c vol dir w = (Ok false, failed (entered Volume c w)))
  /\ (forall bits, get_archive c vol = Ok bits ->
        open_wb_error (w_fs w) path = Some e ->
        backup_volume c vol dir w = (Ok false, failed (entered Volume c w)))
  /\ (forall chunks, get_archive c vol = Ok (chunks, Some e) ->
        open_wb_error (w_fs w) path = None ->
        exists file,
          backup_volume c vol dir w
          = (Ok false, failed (set_fs <[path := File file]> (entered Volume c w)))
          /\ gunzip file = Some (List.concat chunks)).
Proof.
  intros path failed. repeat split.
  - intros Hget. rewrite backup_volume_run. cbv zeta. now rewrite Hget.
  - intros bits Hget Hopen. rewrite backup_volume_run. cbv zeta. rewrite Hget.
    change (w_fs (entered Volume c w)) with (w_fs w). fold path. now rewrite Hopen.
  - intros chunks Hget Hopen. eexists. split.
    + rewrite backup_volume_run. cbv zeta. rewrite Hget.
      change (w_fs (entered Volume c w)) with (w_fs w). fold path. rewrite Hopen.
      reflexivity.
    + apply gunzip_written_chunks.
Qed.

(** A volume whose stream breaks after the chunk [b"abc"] leaves an archive
    of [b"abc"] in [/backup]; the strategy returns [False]. *)
Lemma volume_failures_witness :
  let c := mkContainer (py "web") ∅ [] Scenario.exec_raises
             (fun _ => Ok ([Scenario.abc], Some (OtherException (py "Connection broken")))) in
  let r := backup_volume c (py "/data") (py "/backup") (Scenario.host []) in
  fst r = Ok false
  /\ exists file,
       w_fs (snd r) !! py "/backup/volume_backup_web_data_20240307_123005.tar.gz"
         = Some (File file)
       /\ gunzip file = Some Scenario.abc.
Proof.
  intros c r.
  destruct (@volume_failures ascii_unicode stored_gzip c (py "/data") (py "/backup")
              (Scenario.host []) (OtherException (py "Connection broken")))
    as (_ & _ & H).
  destruct (H [Scenario.abc] eq_refl ltac:(vm_compute; reflexivity))
    as (file & Hrun & Hgunzip).
  unfold r. rewrite Hrun. split; [reflexivity|].
  exists file. split; [apply lookup_insert_eq | exact Hgunzip].
Defined.

(** X8. A dump that exits with status 0, in a place where the artifact can
    be opened, returns [True], records the path at level INFO, and leaves an
    artifact that decompresses to the output of the command, byte for
    byte; this for [backup_mysql] and for [backup_django]. *)
Theorem dump_artifact_content {U : Unicode} {G : Gzip}
    (c : container) (dir : str) (w : World) (output : bytes) :
  (forall d,
     dict_of_env 0 (attrs_Config_Env c) ∅ = Ok d ->
     exec_run c (mysql_cmd_of d) (mysql_environment_of d) = Ok (0%Z, output) ->
     open_wb_error (w_fs w) (mysql_backup_file dir c (timestamp_at w)) = None ->
     exists file,
       backup_mysql c dir w
       = (Ok true,
          add_log INFO
            (py "MySQL backup saved to " ++ mysql_backup_file dir c (timestamp_at w))
            (set_fs <[mysql_backup_file dir c (timestamp_at w) := File file]>
               (entered Mysql c w)))
       /\ gunzip file = Some output)
  /\ (exec_run c dumpdata_cmd [] = Ok (0%Z, output) ->
      open_wb_error (w_fs w) (django_backup_file dir c (timestamp_at w)) = None ->
      exists file,
        backup_django c dir w
        = (Ok true,
           add_log INFO
             (py "Django backup saved to " ++ django_backup_file dir c (timestamp_at w))
             (set_fs <[django_backup_file dir c (timestamp_at w) := File file]>
                (entered Django c w)))
        /\ gunzip file = Some output).
Proof.
  split.
  - intros d Hd Hexec Hopen. eexists. split; [|apply gunzip_written_output].
    rewrite backup_mysql_run. cbv zeta. rewrite Hd, Hexec.
    unfold dump_outcome. simpl fst. simpl snd.
    change (w_fs (entered Mysql c w)) with (w_fs w). now rewrite Hopen.
  - intros Hexec Hopen. eexists. split; [|apply gunzip_written_output].
    now apply backup_django_success.
Qed.

(** The dump of [db] on the host with [/backup] decompresses to the output
    [b"abc"] of its command. *)
Lemma dump_artifact_content_witness :
  let r := backup_mysql Scenario.db (py "/backup") (Scenario.host []) in
  fst r = Ok true
  /\ exists file,
       w_fs (snd r) !! py "/backup/mysql_backup_db_20240307_123005.sql.gz"
         = Some (File file)
       /\ gunzip file = Some Scenario.abc.
Proof.
  intros r.
  destruct (@dump_artifact_content ascii_unicode stored_gzip Scenario.db
              (py "/backup") (Scenario.host []) Scenario.abc) as (H & _).
  destruct (H _ eq_refl eq_refl ltac:(vm_compute; reflexivity))
    as (file & Hrun & Hgunzip).
  unfold r. rewrite Hrun. split; [reflexivity|].
  exists file. split; [apply lookup_insert_eq | exact Hgunzip].
Defined.

(** X9. A dump that exits with another status than 0 and an output of ASCII
    bytes returns [False], writes no file, and adds one record to the log,
    at level ERROR, that holds the name of the container and the output as
    text. *)
Theorem dump_failure_reported {U : Unicode} {G : Gzip}
    (c : container) (dir : str) (w : World) (code : Z) (output : bytes) :
  code <> 0%Z ->
  forallb is_ascii (List.map Byte.to_N output) = true ->
  (forall d,
     dict_of_env 0 (attrs_Config_Env c) ∅ = Ok d ->
     exec_run c (mysql_cmd_of d) (mysql_environment_of d) = Ok (code, output) ->
     backup_mysql c dir w
     = (Ok false,
        add_log ERROR
          (py "MySQL backup failed for " ++ name c ++ py ": " ++
           List.map Byte.to_N output)
          (entered Mysql c w)))
  /\ (exec_run c dumpdata_cmd [] = Ok (code, output) ->
      backup_django c dir w
      = (Ok false,
         add_log ERROR
           (py "Django backup failed for " ++ name c ++ py ": " ++
            List.map Byte.to_N output)
           (entered Django c w))).
Proof.
  intros Hcode Hascii.
  assert (Hdec : decode output = Ok (List.map Byte.to_N output))
    by (now apply utf8_decode_ascii).
  split.
  - intros d Hd Hexec. rewrite backup_mysql_run. cbv zeta. rewrite Hd, Hexec.
    rewrite (dump_outcome_failure "MySQL" c _ (code, output) _
               (List.map Byte.to_N output) Hcode Hdec).
    reflexivity.
  - intros Hexec. rewrite backup_django_run. cbv zeta. rewrite Hexec.
    rewrite (dump_outcome_failure "Django" c _ (code, output) _
               (List.map Byte.to_N output) Hcode Hdec).
    reflexivity.
Qed.

(** The dump of [web_failing] exits with status 1 and the output [b"abc"]:
    the strategy returns [False], the files are as before, the log holds
    the error. *)
Lemma dump_failure_reported_witness :
  let r := backup_django Scenario.web_failing (py "/backup") (Scenario.host []) in
  fst r = Ok false
  /\ w_fs (snd r) = w_fs (Scenario.host [])
  /\ w_log (snd r) = [(ERROR, py "Django backup failed for web: abc")].
Proof.
  intros r.
  destruct (@dump_failure_reported ascii_unicode stored_gzip Scenario.web_failing
              (py "/backup") (Scenario.host []) 1%Z Scenario.abc
              ltac:(discriminate) eq_refl) as (_ & H).
  unfold r. rewrite (H eq_refl). repeat split.
Defined.

(** ** The labels of a container *)

Section LabelFacts.
Context {U : Unicode} {G : Gzip}.

Lemma dump_part_not_volume (c : container) :
  Forall (fun x => fst x <> Volume) (dump_part c).
Proof.
  unfold dump_part, dump_strategy.
  destruct (str_eqb _ (py "mysql")); [repeat constructor; discriminate|].
  destruct (str_eqb _ (py "django")); repeat constructor; discriminate.
Qed.

Lemma process_container_new_entries (dir : str) (c : container) (w : World) :
  exists h,
    w_invoked (snd (process_container dir c w)) = w_invoked w ++ h
    /\ Forall (fun x => opted_in c = true /\ snd x = name c
                        /\ x ∈ dump_part c ++ volume_part c) h.
Proof.
  rewrite process_container_invoked. eexists. split; [reflexivity|].
  destruct (opted_in c); [|constructor].
  apply Forall_forall. intros x Hx.
  assert (Hin : x ∈ dump_part c ++ volume_part c).
  { apply elem_of_app in Hx as [Hx|Hx]; apply elem_of_app; [now left|].
    destruct (is_Ok _); [now right | inversion Hx]. }
  split; [reflexivity|]. split; [|exact Hin].
  apply elem_of_app in Hin as [Hin|Hin].
  - unfold dump_part in Hin. destruct (dump_strategy c); [|inversion Hin].
    apply list_elem_of_singleton in Hin. now subst x.
  - unfold volume_part in Hin. destruct (volume_label c); [|inversion Hin].
    apply list_elem_of_singleton in Hin. now subst x.
Qed.

End LabelFacts.

(** X10. A container without the label [DCBAK-VOLUME], or with the empty
    string as its value, gets no volume archive: the loop body invokes no
    strategy but the dump of its [DCBAK-TYPE], and that only if it opted
    in. *)
Theorem no_volume_label {U : Unicode} {G : Gzip}
    (dir : str) (c : container) (w : World) :
  labels c !! py "DCBAK-VOLUME" = None \/ labels c !! py "DCBAK-VOLUME" = Some [] ->
  w_invoked (snd (process_container dir c w))
  = w_invoked w ++ (if opted_in c then dump_part c else [])
  /\ Forall (fun x => fst x <> Volume) (if opted_in c then dump_part c else []).
Proof.
  intros Hlabel.
  assert (Hv : volume_part c = []).
  { unfold volume_part, volume_label. now destruct Hlabel as [-> | ->]. }
  split.
  - rewrite process_container_invoked, Hv.
    destruct (opted_in c); [|reflexivity].
    destruct (is_Ok _); now rewrite app_nil_r.
  - destruct (opted_in c); [apply dump_part_not_volume | constructor].
Qed.

(** A MySQL container that opted in, with [DCBAK-VOLUME=""]: the dump is
    the one strategy invoked. *)
Lemma no_volume_label_witness :
  let c := mkContainer (py "db")
             (Scenario.label_map [("DCBAK", "true"); ("DCBAK-TYPE", "mysql");
                                  ("DCBAK-VOLUME", "")]%string)
             [] (Scenario.exec_ok Scenario.abc) (Scenario.archive_of [Scenario.abc]) in
  w_invoked (snd (process_container (py "/backup") c (Scenario.host [])))
  = [(Mysql, py "db")].
Proof.
  intros c.
  destruct (@no_volume_label ascii_unicode stored_gzip (py "/backup") c
              (Scenario.host []) ltac:(right; vm_compute; reflexivity))
    as (H & _).
  exact H.
Defined.

(** X11. The value of [DCBAK-TYPE] is compared as it is, case included: a
    container that opted in, whose type is neither ["mysql"] nor ["django"]
    (["MySQL"], say, or no type at all) and that names no volume, has no
    strategy invoked and no file written; the record [Backing up <name>] is
    all the run leaves of it. *)
Theorem unknown_backup_type {U : Unicode} {G : Gzip}
    (dir : str) (c : container) (w : World) :
  opted_in c = true ->
  dict_get (labels c) (py "DCBAK-TYPE") [] <> py "mysql" ->
  dict_get (labels c) (py "DCBAK-TYPE") [] <> py "django" ->
  volume_label c = None ->
  process_container dir c w
  = (Ok tt, add_log INFO (py "Backing up " ++ name c) w).
Proof.
  intros Hin Hmysql Hdjango Hvol.
  assert (Hd : dump_strategy c = None).
  { unfold dump_strategy, str_eqb. cbv zeta.
    now rewrite !bool_decide_eq_false_2 by assumption. }
  rewrite process_container_run, Hin, dispatch_run.
  rewrite (dispatch_dump_none c dir _ Hd), dispatch_volume_run, Hvol.
  reflexivity.
Qed.

(** A container with [DCBAK-TYPE="MySQL"]: one log record, nothing else. *)
Lemma unknown_backup_type_witness :
  let c := mkContainer (py "db")
             (Scenario.label_map [("DCBAK", "true"); ("DCBAK-TYPE", "MySQL")]%string)
             [] (Scenario.exec_ok Scenario.abc) Scenario.archive_missing in
  process_container (py "/backup") c (Scenario.host [])
  = (Ok tt, add_log INFO (py "Backing up db") (Scenario.host [])).
Proof.
  intros c.
  exact (@unknown_backup_type ascii_unicode stored_gzip (py "/backup") c
           (Scenario.host []) eq_refl ltac:(vm_compute; discriminate)
           ltac:(vm_compute; discriminate) eq_refl).
Defined.

(** X12. The containers that did not opt in do not count: the loop over a
    list of containers does what the loop over the opted-in ones among
    them, in their order, does, and the loop over a concatenation is the
    loop over the first list followed by the loop over the second. *)
Theorem loop_skips_and_composes {U : Unicode} {G : Gzip}
    (dir : str) (cs cs' : list container) (w : World) :
  for_containers dir cs w = for_containers dir (List.filter opted_in cs) w
  /\ for_containers dir (cs ++ cs') w
     = for_containers dir cs' (snd (for_containers dir cs w)).
Proof.
  split; [|apply for_containers_app].
  revert w. induction cs as [|c cs IH]; intros w; [reflexivity|].
  cbn [List.filter]. destruct (opted_in c) eqn:E.
  - rewrite !for_containers_cons. apply IH.
  - rewrite for_containers_cons, (not_opted_in_skipped dir c w E). apply IH.
Qed.

(** X13. The loop invokes strategies on none but the opted-in containers of
    its list: every entry it adds to the history bears the name of an
    opted-in container of the list and is the dump that container's
    [DCBAK-TYPE] selects or the archive of its non-empty [DCBAK-VOLUME];
    and the loop itself returns normally, whatever the containers raise. *)
Theorem loop_invokes_opted_in_only {U : Unicode} {G : Gzip}
    (dir : str) (cs : list container) (w : World) :
  fst (for_containers dir cs w) = Ok tt
  /\ exists h,
       w_invoked (snd (for_containers dir cs w)) = w_invoked w ++ h
       /\ Forall (fun x => exists c, c ∈ cs /\ opted_in c = true
                                     /\ snd x = name c
                                     /\ x ∈ dump_part c ++ volume_part c) h.
Proof.
  split; [apply for_containers_returns|].
  revert w. induction cs as [|c cs IH]; intros w.
  - exists []. split; [now rewrite app_nil_r | constructor].
  - rewrite for_containers_cons.
    destruct (process_container_new_entries dir c w) as (h1 & H1 & Hall1).
    destruct (IH (snd (process_container dir c w))) as (h2 & H2 & Hall2).
    exists (h1 ++ h2). split; [rewrite H2, H1; now rewrite app_assoc|].
    apply Forall_app. split.
    + eapply Forall_impl; [exact Hall1|]. intros x (Hin & Hn & Hx).
      exists c. split; [apply list_elem_of_here | auto].
    + eapply Forall_impl; [exact Hall2|]. intros x (b & Hb & Hrest).
      exists b. split; [now apply list_elem_of_further | exact Hrest].
Qed.

(** ** The reach of a run in the file system *)

Lemma confined_refl (dir : str) (fs : gmap str node) : confined dir fs fs.
Proof. split; auto. Qed.

Lemma confined_trans (dir : str) (fs1 fs2 fs3 : gmap str node) :
  confined dir fs1 fs2 -> confined dir fs2 fs3 -> confined dir fs1 fs3.
Proof.
  intros [H1 K1] [H2 K2]. split.
  - intros p Hp Hd. rewrite H2, H1; auto.
  - auto.
Qed.

Lemma confined_insert (dir : str) (fs : gmap str node) (p : str) (n : node) :
  p = dir \/ dirname p = dir -> confined dir fs (<[p := n]> fs).
Proof.
  intros Hp. split.
  - intros q Hq Hd. apply lookup_insert_ne. intros ->. destruct Hp; contradiction.
  - intros q Hq. destruct (decide (p = q)) as [->|Hne].
    + rewrite lookup_insert_eq. now eexists.
    + now rewrite lookup_insert_ne.
Qed.

Section ReachFacts.
Context {U : Unicode} {G : Gzip}.

Lemma wrote_only_confined (dir : str) (r : result bool * World) (w : World) (p : str) :
  dirname p = dir -> wrote_only r w p -> confined dir (w_fs w) (w_fs (snd r)).
Proof.
  intros Hp [[-> | [content ->]] _]; [apply confined_refl|].
  apply confined_insert. now right.
Qed.

Lemma backup_mysql_confined (dir : str) (c : container) (w : World) :
  plain_dir dir -> confined dir (w_fs w) (w_fs (snd (backup_mysql c dir w))).
Proof.
  intros Hd. eapply wrote_only_confined; [|apply backup_mysql_wrote_only].
  apply dirname_path_join; [exact Hd | apply mysql_name_no_slash].
Qed.

Lemma backup_django_confined (dir : str) (c : container) (w : World) :
  plain_dir dir -> confined dir (w_fs w) (w_fs (snd (backup_django c dir w))).
Proof.
  intros Hd. eapply wrote_only_confined; [|apply backup_django_wrote_only].
  apply dirname_path_join; [exact Hd | apply django_name_no_slash].
Qed.

Lemma backup_volume_confined (dir : str) (c : container) (vol : str) (w : World) :
  plain_dir dir -> confined dir (w_fs w) (w_fs (snd (backup_volume c vol dir w))).
Proof.
  intros Hd. eapply wrote_only_confined; [|apply backup_volume_wrote_only].
  apply dirname_path_join; [exact Hd | apply volume_name_no_slash].
Qed.

Lemma dispatch_confined (dir : str) (c : container) (w : World) :
  plain_dir dir -> confined dir (w_fs w) (w_fs (snd (dispatch c dir w))).
Proof.
  intros Hd. rewrite dispatch_run.
  assert (Hdump : confined dir (w_fs w) (w_fs (snd (dispatch_dump c dir w)))).
  { rewrite dispatch_dump_run.
    destruct (dump_strategy c) as [[| |]|]; try apply confined_refl.
    - pose proof (backup_mysql_confined dir c
                    (add_log INFO (py " > MySQL Backup") w) Hd) as H.
      destruct (backup_mysql c dir _) as [[b|e] w']; exact H.
    - pose proof (backup_django_confined dir c
                    (add_log INFO (py " > Django Backup") w) Hd) as H.
      destruct (backup_django c dir _) as [[b|e] w']; exact H. }
  destruct (dispatch_dump c dir w) as [[[]|e] w']; [|exact Hdump].
  simpl in *. rewrite dispatch_volume_run.
  destruct (volume_label c) as [vol|]; [|exact Hdump].
  eapply confined_trans; [exact Hdump|].
  apply (backup_volume_confined dir c vol (add_log INFO (py " > Volume Backup") w') Hd).
Qed.

Lemma process_container_confined (dir : str) (c : container) (w : World) :
  plain_dir dir -> confined dir (w_fs w) (w_fs (snd (process_container dir c w))).
Proof.
  intros Hd. rewrite process_container_run.
  destruct (opted_in c); [|apply confined_refl].
  pose proof (dispatch_confined dir c (announced c w) Hd) as H.
  destruct (dispatch c dir (announced c w)) as [[[]|e] w']; exact H.
Qed.

Lemma for_containers_confined (dir : str) (cs : list container) (w : World) :
  plain_dir dir -> confined dir (w_fs w) (w_fs (snd (for_containers dir cs w))).
Proof.
  intros Hd. revert w. induction cs as [|c cs IH]; intros w; [apply confined_refl|].
  rewrite for_containers_cons.
  eapply confined_trans; [now apply process_container_confined | apply IH].
Qed.

End ReachFacts.

(** X14. A run of [main] is confined to the backup directory: whatever the
    containers are called and whatever they answer, every path of the host
    that is neither the backup directory nor directly in it is after the
    run what it was before, and no file or directory is removed. *)
Theorem main_confined {U : Unicode} {G : Gzip} (w : World) :
  confined (backup_dir_if (path_exists (w_fs w) (py "/backup")))
    (w_fs w) (w_fs (snd (main w))).
Proof.
  rewrite main_run. cbv zeta.
  set (dir := backup_dir_if (path_exists (w_fs w) (py "/backup"))).
  assert (Hplain : plain_dir dir) by (unfold plain_dir; apply backup_dir_if_plain).
  destruct (mkdir_parents (length dir) dir (w_fs w)) as [fs'|e] eqn:Hmk;
    [|apply confined_refl].
  assert (Hfs : confined dir (w_fs w) fs').
  { unfold dir in Hmk. rewrite mkdir_backup_dir in Hmk. fold dir in Hmk.
    destruct (is_dir (w_fs w) dir); [injection Hmk as <-; apply confined_refl|].
    destruct (w_fs w !! dir); [discriminate|]. injection Hmk as <-.
    apply confined_insert. now left. }
  destruct (w_docker w) as [msg|cs]; [exact Hfs|].
  eapply confined_trans; [exact Hfs|].
  now apply (for_containers_confined dir cs (set_fs (fun _ => fs') w)).
Qed.

(** ** The creation of a directory *)






(** ** Time stamps, read back *)

Lemma pad2_value (n : N) : n < 100 -> digits_value (pad2 n) = n.
Proof.
  intros H.
  apply N.eqb_eq. revert n H.
  apply (forallb_below (fun n => digits_value (pad2 n) =? n) 100).
  vm_compute. reflexivity.
Qed.

Lemma year_value (n : N) : n < 10000 -> digits_value (str_of_N n) = n.
Proof.
  intros H.
  apply N.eqb_eq. revert n H.
  apply (forallb_below (fun n => digits_value (str_of_N n) =? n) 10000).
  vm_compute. reflexivity.
Qed.

Lemma valid_datetime_bounds (dt : datetime) :
  valid_datetime dt = true ->
  1000 <= year dt <= 9999 /\ month dt < 100 /\ day dt < 100 /\
  hour dt < 100 /\ minute dt < 100 /\ second dt < 100.
Proof.
  unfold valid_datetime. intros H.
  repeat (apply andb_prop in H as [H ?]).
  repeat match goal with
  | h : (_ <=? _) = true |- _ => apply N.leb_le in h
  | h : (_ <? _) = true |- _ => apply N.ltb_lt in h
  end.
  lia.
Qed.

Lemma strftime_parts (dt : datetime) :
  valid_datetime dt = true ->
  exists y1 y2 y3 y4 m1 m2 d1 d2 h1 h2 i1 i2 s1 s2,
    str_of_N (year dt) = [y1; y2; y3; y4]
    /\ pad2 (month dt) = [m1; m2] /\ pad2 (day dt) = [d1; d2]
    /\ pad2 (hour dt) = [h1; h2] /\ pad2 (minute dt) = [i1; i2]
    /\ pad2 (second dt) = [s1; s2].
Proof.
  intros H. apply valid_datetime_bounds in H as (Hy & Hm & Hd & Hh & Hi & Hs).
  pose proof (year_four_digits _ Hy) as Ky.
  pose proof (pad2_two_digits _ Hm) as Km.
  pose proof (pad2_two_digits _ Hd) as Kd.
  pose proof (pad2_two_digits _ Hh) as Kh.
  pose proof (pad2_two_digits _ Hi) as Ki.
  pose proof (pad2_two_digits _ Hs) as Ks.
  unfold year_ok, pad2_ok in *.
  destruct (str_of_N (year dt)) as [|y1 [|y2 [|y3 [|y4 [|]]]]]; try discriminate.
  destruct (pad2 (month dt)) as [|m1 [|m2 [|]]]; try discriminate.
  destruct (pad2 (day dt)) as [|d1 [|d2 [|]]]; try discriminate.
  destruct (pad2 (hour dt)) as [|h1 [|h2 [|]]]; try discriminate.
  destruct (pad2 (minute dt)) as [|i1 [|i2 [|]]]; try discriminate.
  destruct (pad2 (second dt)) as [|s1 [|s2 [|]]]; try discriminate.
  repeat eexists.
Qed.

(** X16. The time stamp tells the second and nothing finer: two valid
    [datetime] objects have the same stamp exactly when they agree on year,
    month, day, hour, minute and second.  Hence two dumps of one container
    into one directory bear the same name exactly when they are taken
    within the same second. *)
Theorem timestamp_injective {U : Unicode}
    (a b : datetime) (dir : str) (c : container) :
  valid_datetime a = true -> valid_datetime b = true ->
  (strftime a = strftime b <-> same_second a b)
  /\ (plain_dir dir ->
      (mysql_backup_file dir c (strftime a) = mysql_backup_file dir c (strftime b)
       <-> same_second a b)).
Proof.
  intros Ha Hb.
  assert (Hts : strftime a = strftime b <-> same_second a b).
  { split.
    - intros H.
      destruct (strftime_parts a Ha)
        as (y1 & y2 & y3 & y4 & m1 & m2 & d1 & d2 & h1 & h2 & i1 & i2 & s1 & s2 &
            Ey & Em & Ed & Eh & Ei & Es).
      destruct (strftime_parts b Hb)
        as (y1' & y2' & y3' & y4' & m1' & m2' & d1' & d2' & h1' & h2' & i1' & i2' &
            s1' & s2' & Ey' & Em' & Ed' & Eh' & Ei' & Es').
      unfold strftime in H.
      rewrite Ey, Em, Ed, Eh, Ei, Es, Ey', Em', Ed', Eh', Ei', Es' in H.
      cbn [app] in H. injection H as -> -> -> -> -> -> -> -> -> -> -> -> -> ->.
      apply valid_datetime_bounds in Ha as (Hy & Hm & Hd & Hh & Hi & Hs).
      apply valid_datetime_bounds in Hb as (Hy' & Hm' & Hd' & Hh' & Hi' & Hs').
      unfold same_second. repeat split.
      + rewrite <- (year_value (year a)), <- (year_value (year b)) by lia. congruence.
      + rewrite <- (pad2_value (month a)), <- (pad2_value (month b)) by lia. congruence.
      + rewrite <- (pad2_value (day a)), <- (pad2_value (day b)) by lia. congruence.
      + rewrite <- (pad2_value (hour a)), <- (pad2_value (hour b)) by lia. congruence.
      + rewrite <- (pad2_value (minute a)), <- (pad2_value (minute b)) by lia. congruence.
      + rewrite <- (pad2_value (second a)), <- (pad2_value (second b)) by lia. congruence.
    - intros (Hy & Hm & Hd & Hh & Hi & Hs). unfold strftime. congruence. }
  split; [exact Hts|].
  intros Hdir. rewrite <- Hts. unfold mysql_backup_file. split.
  - intros H. apply path_join_inj in H;
      [|assumption | apply mysql_name_no_slash | apply mysql_name_no_slash].
    apply app_inv_head in H. apply app_inv_head in H. apply app_inv_head in H.
    now apply app_inv_tail in H.
  - now intros ->.
Qed.

(** Noon in two different microseconds gives one stamp; a second later the
    stamp differs. *)
Lemma timestamp_injective_witness :
  strftime Scenario.noon = strftime (mkDatetime 2024 3 7 12 30 5 0)
  /\ strftime Scenario.noon <> strftime (mkDatetime 2024 3 7 12 30 6 0).
Proof.
  destruct (@timestamp_injective ascii_unicode Scenario.noon
              (mkDatetime 2024 3 7 12 30 5 0) (py "/backup") Scenario.db
              eq_refl eq_refl) as [[_ Hsame] _].
  destruct (@timestamp_injective ascii_unicode Scenario.noon
              (mkDatetime 2024 3 7 12 30 6 0) (py "/backup") Scenario.db
              eq_refl eq_refl) as [[Hdiff _] _].
  split.
  - apply Hsame. repeat split.
  - intros H. apply Hdiff in H. destruct H as (_ & _ & _ & _ & _ & H). discriminate.
Defined.

(** ** Two containers, one name *)

Lemma is_dir_insert_file (fs : gmap str node) (p : str) (content : bytes) :
  is_dir fs p = false -> is_dir (<[p := File content]> fs) p = false.
Proof.
  unfold is_dir. intros H. rewrite lookup_insert_eq.
  apply orb_false_iff in H as [H _]. now rewrite H.
Qed.

Section CollisionFacts.
Context {U : Unicode} {G : Gzip}.

Lemma process_container_django_success (dir : str) (c : container) (w : World)
    (out : bytes) :
  opted_in c = true -> dump_strategy c = Some Django -> volume_label c = None ->
  exec_run c dumpdata_cmd [] = Ok (0%Z, out) ->
  open_wb_error (w_fs w) (django_backup_file dir c (timestamp_at w)) = None ->
  process_container dir c w =
  (Ok tt,
   add_log INFO
     (py "Django backup saved to " ++ django_backup_file dir c (timestamp_at w))
     (set_fs <[django_backup_file dir c (timestamp_at w) :=
                 File (gz_close (gz_write gz_init out))]>
        (entered Django c
           (add_log INFO (py " > Django Backup") (announced c w))))).
Proof.
  intros Hin Hd Hv Hexec Hopen.
  rewrite process_container_run, Hin, dispatch_run, (dispatch_dump_django c dir _ Hd).
  rewrite (backup_django_success c dir
             (add_log INFO (py " > Django Backup") (announced c w)) out Hexec Hopen).
  rewrite dispatch_volume_run, Hv. reflexivity.
Qed.

Lemma process_container_announces (dir : str) (c : container) (w : World) :
  opted_in c = true ->
  (INFO, py "Backing up " ++ name c) ∈ w_log (snd (process_container dir c w)).
Proof.
  intros Hin. rewrite process_container_run, Hin.
  assert (H : (INFO, py "Backing up " ++ name c)
              ∈ w_log (snd (dispatch c dir (announced c w)))).
  { destruct (dispatch_log c dir (announced c w)) as [l ->].
    apply elem_of_app. left. simpl. apply elem_of_app. right.
    apply list_elem_of_singleton. reflexivity. }
  destruct (dispatch c dir (announced c w)) as [[[]|e] w']; [exact H|].
  simpl. apply elem_of_app. now left.
Qed.

End CollisionFacts.

(** X17. Sanitising can make two names one, and then one artifact replaces
    the other.  When two containers whose names have the same sanitised
    form are dumped by [backup_django] one after the other within the same
    second, both dumps report success and both log the same path, but the
    directory holds a single artifact: the dump of the second container. *)
Theorem same_name_overwrites {U : Unicode} {G : Gzip}
    (dir : str) (c1 c2 : container) (w : World) (out1 out2 : bytes) :
  let p := django_backup_file dir c1 (timestamp_at w) in
  safe_filename (name c1) = safe_filename (name c2) ->
  timestamp_at w = next_timestamp w ->
  opted_in c1 = true -> dump_strategy c1 = Some Django -> volume_label c1 = None ->
  opted_in c2 = true -> dump_strategy c2 = Some Django -> volume_label c2 = None ->
  exec_run c1 dumpdata_cmd [] = Ok (0%Z, out1) ->
  exec_run c2 dumpdata_cmd [] = Ok (0%Z, out2) ->
  plain_dir dir -> is_dir (w_fs w) dir = true -> is_dir (w_fs w) p = false ->
  let final := snd (for_containers dir [c1; c2] w) in
  w_fs final = <[p := File (gz_close (gz_write gz_init out2))]> (w_fs w)
  /\ gunzip (gz_close (gz_write gz_init out2)) = Some out2
  /\ w_invoked final = w_invoked w ++ [(Django, name c1); (Django, name c2)]
  /\ Forall (fun x => fst x = INFO) (skipn (length (w_log w)) (w_log final))
  /\ (INFO, py "Django backup saved to " ++ p) ∈ w_log final.
Proof.
  intros p Hname Hts Hin1 Hd1 Hv1 Hin2 Hd2 Hv2 Hexec1 Hexec2 Hplain Hdir Hp final.
  assert (Hopen1 : open_wb_error (w_fs w) p = None).
  { apply open_in_dir; auto. apply django_name_no_slash. }
  pose proof (process_container_django_success dir c1 w out1 Hin1 Hd1 Hv1 Hexec1 Hopen1)
    as H1.
  fold p in H1.
  set (w1 := add_log INFO (py "Django backup saved to " ++ p)
               (set_fs <[p := File (gz_close (gz_write gz_init out1))]>
                  (entered Django c1
                     (add_log INFO (py " > Django Backup") (announced c1 w))))) in *.
  assert (Hp2 : django_backup_file dir c2 (timestamp_at w1) = p).
  { change (timestamp_at w1) with (next_timestamp w). rewrite <- Hts.
    unfold p, django_backup_file. now rewrite Hname. }
  assert (Hopen2 : open_wb_error (w_fs w1) (django_backup_file dir c2 (timestamp_at w1))
                   = None).
  { rewrite Hp2. change (w_fs w1) with (<[p := File (gz_close (gz_write gz_init out1))]> (w_fs w)).
    apply open_in_dir; auto.
    - apply django_name_no_slash.
    - rewrite is_dir_insert_ne; [exact Hdir|].
      intros H. symmetry in H. revert H. apply path_join_longer; auto.
      apply django_name_no_slash.
    - now apply is_dir_insert_file. }
  pose proof (process_container_django_success dir c2 w1 out2 Hin2 Hd2 Hv2 Hexec2 Hopen2)
    as H2.
  rewrite Hp2 in H2.
  assert (Hfinal : final =
            add_log INFO (py "Django backup saved to " ++ p)
              (set_fs <[p := File (gz_close (gz_write gz_init out2))]>
                 (entered Django c2
                    (add_log INFO (py " > Django Backup") (announced c2 w1))))).
  { unfold final. rewrite !for_containers_cons, H1. simpl snd. now rewrite H2. }
  rewrite Hfinal. split; [|split; [|split; [|split]]].
  - simpl. apply insert_insert_eq.
  - apply gunzip_written_output.
  - simpl. rewrite <- !app_assoc. reflexivity.
  - simpl. rewrite <- !app_assoc. rewrite drop_app_length.
    repeat constructor.
  - simpl. apply elem_of_app. right. apply list_elem_of_singleton. reflexivity.
Qed.

(** The containers [my.web] and [myweb], dumped at noon into [/backup]:
    one file, the dump of the second. *)
Lemma same_name_overwrites_witness :
  let c1 := mkContainer (py "my.web")
              (Scenario.label_map [("DCBAK", "true"); ("DCBAK-TYPE", "django")]%string)
              [] (Scenario.exec_ok Scenario.abc) Scenario.archive_missing in
  let c2 := mkContainer (py "myweb")
              (Scenario.label_map [("DCBAK", "true"); ("DCBAK-TYPE", "django")]%string)
              [] (Scenario.exec_ok Scenario.def) Scenario.archive_missing in
  w_fs (snd (for_containers (py "/backup") [c1; c2] (Scenario.host [])))
  = <[py "/backup/django_backup_myweb_20240307_123005.json.gz" :=
        File (gz_close (gz_write gz_init Scenario.def))]>
      (w_fs (Scenario.host [])).
Proof.
  intros c1 c2.
  destruct (@same_name_overwrites ascii_unicode stored_gzip (py "/backup") c1 c2
              (Scenario.host []) Scenario.abc Scenario.def
              eq_refl eq_refl eq_refl eq_refl eq_refl eq_refl eq_refl eq_refl
              eq_refl eq_refl ltac:(split; [discriminate | reflexivity])
              eq_refl eq_refl)
    as (H & _).
  exact H.
Defined.

(** X18. The log names every container the run attempts: for each opted-in
    container of the list the loop leaves the record [Backing up <name>],
    at level INFO, also when the strategies of that container or of another
    one raise. *)
Theorem loop_announces {U : Unicode} {G : Gzip}
    (dir : str) (cs : list container) (w : World) (c : container) :
  c ∈ cs -> opted_in c = true ->
  (INFO, py "Backing up " ++ name c) ∈ w_log (snd (for_containers dir cs w)).
Proof.
  intros Hc Hin. revert w. induction cs as [|b cs IH]; intros w; [inversion Hc|].
  rewrite for_containers_cons. apply elem_of_cons in Hc as [<- | Hc].
  - destruct (for_containers_log dir cs (snd (process_container dir c w))) as [l ->].
    apply elem_of_app. left. now apply process_container_announces.
  - now apply IH.
Qed.

(** In the loop over [db_bare_env], whose dump raises, and [web], both are
    announced. *)
Lemma loop_announces_witness :
  (INFO, py "Backing up db")
    ∈ w_log (snd (for_containers (py "/backup") [Scenario.db_bare_env; Scenario.web]
                    (Scenario.host [])))
  /\ (INFO, py "Backing up web")
    ∈ w_log (snd (for_containers (py "/backup") [Scenario.db_bare_env; Scenario.web]
                    (Scenario.host []))).
Proof.
  split.
  - apply (@loop_announces ascii_unicode stored_gzip (py "/backup") _ _
             Scenario.db_bare_env); [apply list_elem_of_here | reflexivity].
  - apply (@loop_announces ascii_unicode stored_gzip (py "/backup") _ _
             Scenario.web);
      [apply list_elem_of_further, list_elem_of_here | reflexivity].
Defined.

(** X19. A dump that fails by its exit status does not stand in the way of
    the volume archive: when the command of [backup_django] exits with
    another status than 0 and a readable output, the strategy returns
    [False] without raising, and the loop body goes on to invoke
    [backup_volume] for the volume the container names. *)
Theorem failed_dump_then_volume {U : Unicode} {G : Gzip}
    (dir : str) (c : container) (w : World) (code : Z) (output : bytes) (vol : str) :
  opted_in c = true -> dump_strategy c = Some Django ->
  volume_label c = Some vol ->
  exec_run c dumpdata_cmd [] = Ok (code, output) ->
  code <> 0%Z -> forallb is_ascii (List.map Byte.to_N output) = true ->
  w_invoked (snd (process_container dir c w))
  = w_invoked w ++ [(Django, name c); (Volume, name c)]
  /\ (ERROR, py "Django backup failed for " ++ name c ++ py ": " ++
             List.map Byte.to_N output)
     ∈ w_log (snd (process_container dir c w)).
Proof.
  intros Hin Hd Hv Hexec Hcode Hascii.
  assert (Hdec : decode output = Ok (List.map Byte.to_N output))
    by (now apply utf8_decode_ascii).
  assert (Hrun : backup_django c dir
                   (add_log INFO (py " > Django Backup") (announced c w))
                 = (Ok false,
                    add_log ERROR
                      (py "Django backup failed for " ++ name c ++ py ": " ++
                       List.map Byte.to_N output)
                      (entered Django c
                         (add_log INFO (py " > Django Backup") (announced c w))))).
  { rewrite backup_django_run. cbv zeta. rewrite Hexec.
    rewrite (dump_outcome_failure "Django" c _ (code, output) _
               (List.map Byte.to_N output) Hcode Hdec).
    reflexivity. }
  split.
  - rewrite process_container_invoked, Hin.
    unfold dump_part, volume_part. rewrite Hd, Hv.
    rewrite (dispatch_dump_django c dir _ Hd), Hrun. reflexivity.
  - rewrite process_container_run, Hin, dispatch_run.
    rewrite (dispatch_dump_django c dir _ Hd), Hrun.
    cbv beta iota. simpl snd.
    match goal with
    | |- _ ∈ w_log (snd (dispatch_volume c dir ?x)) =>
        destruct (dispatch_volume_log c dir x) as [l ->]
    end.
    apply elem_of_app. left. simpl. apply elem_of_app. right.
    apply list_elem_of_singleton. reflexivity.
Qed.

(** A Django container whose dump exits with status 1 and whose volume
    cannot be fetched: both strategies are invoked. *)
Lemma failed_dump_then_volume_witness :
  let c := mkContainer (py "web")
             (Scenario.label_map [("DCBAK", "true"); ("DCBAK-TYPE", "django");
                                  ("DCBAK-VOLUME", "/data")]%string)
             [] (Scenario.exec_exit 1 Scenario.abc) Scenario.archive_missing in
  w_invoked (snd (process_container (py "/backup") c (Scenario.host [])))
  = [(Django, py "web"); (Volume, py "web")].
Proof.
  intros c.
  destruct (@failed_dump_then_volume ascii_unicode stored_gzip (py "/backup") c
              (Scenario.host []) 1%Z Scenario.abc (py "/data")
              eq_refl eq_refl eq_refl eq_refl ltac:(discriminate) eq_refl)
    as (H & _).
  exact H.
Defined.
